(** * Universal URL Video Downloader: the URL-to-artifact pipeline of [app.py]

    A shallow embedding of [URLProcessor] (platform detection, content-URL
    validation, sanitisation) and of [DownloadManager] (format selection,
    metadata probe, the download / fallback state machine), followed by the
    properties of these functions.

    Conventions of the embedding.
    - A Python [str] is a [string]: a sequence of 8-bit characters, read as the
      code points 0..255.  [str.lower], [str.isspace] and the regular
      expression classes [\w] and [\d] are written out for that range, where
      they agree with CPython.
    - A Python [dict] whose iteration order matters is an association list in
      insertion order.
    - [None] / a value is [option]; a raised exception is the left summand of
      a result.
    - The extraction engine ([yt_dlp.YoutubeDL]) and the file system are
      parameters of the development; every call to the engine is recorded in
      a trace. *)

From Stdlib Require Import String Ascii List Bool Arith NArith ZArith Lia.
Import ListNotations.
Local Open Scope string_scope.
Local Open Scope bool_scope.

(* ====================================================================== *)
(** ** Python string primitives *)
(* ====================================================================== *)

Module PyStr.

(** Code point of a character. *)
Definition ord (c : ascii) : N := N_of_ascii c.

Definition in_range (lo hi : N) (c : ascii) : bool :=
  (lo <=? ord c)%N && (ord c <=? hi)%N.

(** [str.isspace] on one character (code points below 256): TAB..CR,
    FS..US, SPACE, NEL and NBSP. *)
Definition isspace (c : ascii) : bool :=
  in_range 9 13 c || in_range 28 31 c || (ord c =? 32)%N
  || (ord c =? 133)%N || (ord c =? 160)%N.

(** [str.lower] on one character: A-Z and the Latin-1 capitals
    (U+00C0..U+00DE except the multiplication sign U+00D7) move up by 32. *)
Definition lower_char (c : ascii) : ascii :=
  if in_range 65 90 c || (in_range 192 222 c && negb (ord c =? 215)%N)
  then ascii_of_N (ord c + 32)
  else c.

(** [s.lower()] *)
Fixpoint lower (s : string) : string :=
  match s with
  | EmptyString => EmptyString
  | String c t => String (lower_char c) (lower t)
  end.

(** [s.startswith(p)] *)
Fixpoint startswith (p s : string) : bool :=
  match p, s with
  | EmptyString, _ => true
  | String _ _, EmptyString => false
  | String a p', String b s' => Ascii.eqb a b && startswith p' s'
  end.

(** [s.endswith(p)]: some suffix of [s] is [p]. *)
Fixpoint endswith (p s : string) : bool :=
  String.eqb p s
  || match s with
     | EmptyString => false
     | String _ t => endswith p t
     end.

(** [p in s] *)
Fixpoint contains (p s : string) : bool :=
  startswith p s
  || match s with
     | EmptyString => false
     | String _ t => contains p t
     end.

(** [s.count(c)] for a one-character argument. *)
Fixpoint count (c : ascii) (s : string) : nat :=
  match s with
  | EmptyString => 0
  | String a t => (if Ascii.eqb a c then 1 else 0) + count c t
  end.

(** [''.join(s.split())]: [split()] cuts at runs of white space and drops
    them, so the joined result is [s] without its white-space characters. *)
Fixpoint join_split (s : string) : string :=
  match s with
  | EmptyString => EmptyString
  | String a t => if isspace a then join_split t else String a (join_split t)
  end.

(** [s.lstrip(c)] for a one-character argument: all leading [c] go. *)
Fixpoint lstrip (c : ascii) (s : string) : string :=
  match s with
  | EmptyString => EmptyString
  | String a t => if Ascii.eqb a c then lstrip c t else s
  end.

(** [s.rstrip(c)] for a one-character argument: all trailing [c] go. *)
Fixpoint rstrip (c : ascii) (s : string) : string :=
  match s with
  | EmptyString => EmptyString
  | String a t =>
      match rstrip c t with
      | EmptyString => if Ascii.eqb a c then EmptyString else String a EmptyString
      | r => String a r
      end
  end.

(** [s.rsplit('.', 1)[0]]: what precedes the last ['.'], the whole of [s]
    when it has none. *)
Fixpoint rsplit1_head (c : ascii) (s : string) : string :=
  match s with
  | EmptyString => EmptyString
  | String a t =>
      if (0 <? count c t)%nat then String a (rsplit1_head c t)
      else if Ascii.eqb a c then EmptyString
      else s
  end.

(** [s.split(c)] for a one-character separator. *)
Fixpoint split (c : ascii) (s : string) : list string :=
  match s with
  | EmptyString => [EmptyString]
  | String a t =>
      if Ascii.eqb a c then EmptyString :: split c t
      else match split c t with
           | [] => [String a EmptyString]
           | w :: ws => String a w :: ws
           end
  end.

(** [c * n] *)
Fixpoint replicate (n : nat) (c : ascii) : string :=
  match n with
  | 0 => EmptyString
  | S k => String c (replicate k c)
  end.

(** Every character of [s] satisfies [f]. *)
Fixpoint all_chars (f : ascii -> bool) (s : string) : bool :=
  match s with
  | EmptyString => true
  | String a t => f a && all_chars f t
  end.

(** Not a white-space character. *)
Definition nonspace (c : ascii) : bool := negb (isspace c).

(** Truth value of a string: [not s] is [true] on the empty string only. *)
Definition falsy (s : string) : bool :=
  match s with EmptyString => true | _ => false end.

End PyStr.

(* ====================================================================== *)
(** ** Regular expressions ([re.search]) *)
(* ====================================================================== *)

Module Re.

(** One item of a bracketed character class. *)
Inductive item : Type :=
| IChar (c : ascii)              (* a literal character *)
| IRange (lo hi : ascii)         (* [lo-hi] *)
| IWord                          (* [\w] *)
| IDigit.                        (* [\d] *)

(** [\d] on a [str] pattern: the decimal digits; below 256 these are 0-9. *)
Definition is_digit (c : ascii) : bool := PyStr.in_range 48 57 c.

(** [\w] on a [str] pattern: alphanumeric characters and the underscore.
    Below 256: 0-9, A-Z, a-z, [_], the ordinal indicators and micro sign,
    the superscript digits, the vulgar fractions, and the Latin-1 letters. *)
Definition is_word (c : ascii) : bool :=
  PyStr.in_range 48 57 c || PyStr.in_range 65 90 c || PyStr.in_range 97 122 c
  || (PyStr.ord c =? 95)%N
  || (PyStr.ord c =? 170)%N || (PyStr.ord c =? 178)%N || (PyStr.ord c =? 179)%N
  || (PyStr.ord c =? 181)%N || (PyStr.ord c =? 185)%N || (PyStr.ord c =? 186)%N
  || PyStr.in_range 188 190 c
  || PyStr.in_range 192 214 c || PyStr.in_range 216 246 c
  || PyStr.in_range 248 255 c.

Definition item_mem (i : item) (c : ascii) : bool :=
  match i with
  | IChar a => Ascii.eqb a c
  | IRange lo hi => PyStr.in_range (PyStr.ord lo) (PyStr.ord hi) c
  | IWord => is_word c
  | IDigit => is_digit c
  end.

Definition class_mem (cl : list item) (c : ascii) : bool :=
  existsb (fun i => item_mem i c) cl.

(** The fragment of the pattern language that [PLATFORM_PATTERNS] uses.
    Groups, capturing or not, only delimit; they are not represented. *)
Inductive regex : Type :=
| Void                            (* matches nothing *)
| Eps                             (* the empty pattern *)
| Class (cl : list item)          (* one character of a class *)
| Cat (r1 r2 : regex)             (* r1 r2 *)
| Alt (r1 r2 : regex)             (* r1|r2 *)
| Star (r : regex).               (* r* *)

(** A literal character, escaped or not. *)
Definition Chr (c : ascii) : regex := Class [IChar c].

(** A literal run of characters. *)
Fixpoint Lit (s : string) : regex :=
  match s with
  | EmptyString => Eps
  | String c EmptyString => Chr c
  | String c t => Cat (Chr c) (Lit t)
  end.

(** [r+] *)
Definition Plus (r : regex) : regex := Cat r (Star r).

(** [r{n}] *)
Fixpoint Rep (n : nat) (r : regex) : regex :=
  match n with
  | 0 => Eps
  | 1 => r
  | S k => Cat r (Rep k r)
  end.

(** Declarative meaning: the strings a pattern matches in full. *)
Inductive matches : regex -> string -> Prop :=
| MEps : matches Eps EmptyString
| MClass cl c : class_mem cl c = true -> matches (Class cl) (String c EmptyString)
| MCat r1 r2 s1 s2 : matches r1 s1 -> matches r2 s2 -> matches (Cat r1 r2) (s1 ++ s2)
| MAltL r1 r2 s : matches r1 s -> matches (Alt r1 r2) s
| MAltR r1 r2 s : matches r2 s -> matches (Alt r1 r2) s
| MStar0 r : matches (Star r) EmptyString
| MStarS r s1 s2 : matches r s1 -> matches (Star r) s2 -> matches (Star r) (s1 ++ s2).

(** The pattern matches somewhere inside [s] (unanchored). *)
Definition matches_anywhere (r : regex) (s : string) : Prop :=
  exists pre mid post, s = pre ++ mid ++ post /\ matches r mid.

(** *** The matcher: Brzozowski derivatives *)

Fixpoint nullable (r : regex) : bool :=
  match r with
  | Void => false
  | Eps => true
  | Class _ => false
  | Cat r1 r2 => nullable r1 && nullable r2
  | Alt r1 r2 => nullable r1 || nullable r2
  | Star _ => true
  end.

Definition cat (r1 r2 : regex) : regex :=
  match r1, r2 with
  | Void, _ => Void
  | _, Void => Void
  | Eps, _ => r2
  | _, _ => Cat r1 r2
  end.

Definition alt (r1 r2 : regex) : regex :=
  match r1, r2 with
  | Void, _ => r2
  | _, Void => r1
  | _, _ => Alt r1 r2
  end.

Fixpoint deriv (c : ascii) (r : regex) : regex :=
  match r with
  | Void => Void
  | Eps => Void
  | Class cl => if class_mem cl c then Eps else Void
  | Cat r1 r2 =>
      alt (cat (deriv c r1) r2) (if nullable r1 then deriv c r2 else Void)
  | Alt r1 r2 => alt (deriv c r1) (deriv c r2)
  | Star r1 => cat (deriv c r1) (Star r1)
  end.

(** Some prefix of [s] matches [r] ([re.match] succeeds). *)
Fixpoint match_prefix (r : regex) (s : string) : bool :=
  nullable r
  || match s with
     | EmptyString => false
     | String c t => match_prefix (deriv c r) t
     end.

(** [re.search(r, s)] is not [None]: a match starts at some position. *)
Fixpoint search (r : regex) (s : string) : bool :=
  match_prefix r s
  || match s with
     | EmptyString => false
     | String _ t => search r t
     end.

End Re.

(* ====================================================================== *)
(** ** Constants *)
(* ====================================================================== *)

(** [[a-zA-Z0-9_-]] *)
Definition id_class : list Re.item :=
  [Re.IRange "a" "z"; Re.IRange "A" "Z"; Re.IRange "0" "9"; Re.IChar "_"; Re.IChar "-"]%char.

(** [[\w\.-]] *)
Definition name_class : list Re.item := [Re.IWord; Re.IChar "."; Re.IChar "-"]%char.

Definition word_plus : Re.regex := Re.Plus (Re.Class [Re.IWord]).
Definition digit_plus : Re.regex := Re.Plus (Re.Class [Re.IDigit]).

(** [PLATFORM_PATTERNS], in the order the dictionary literal declares its
    keys and each list its patterns. *)
Definition PLATFORM_PATTERNS : list (string * list Re.regex) :=
  [ ("youtube",
      [ (* (?:youtube\.com\/watch\?v=|youtu\.be\/|youtube\.com\/embed\/|youtube\.com\/v\/)([a-zA-Z0-9_-]{11}) *)
        Re.Cat (Re.Alt (Re.Lit "youtube.com/watch?v=")
                 (Re.Alt (Re.Lit "youtu.be/")
                   (Re.Alt (Re.Lit "youtube.com/embed/") (Re.Lit "youtube.com/v/"))))
               (Re.Rep 11 (Re.Class id_class));
        (* youtube\.com\/shorts\/([a-zA-Z0-9_-]{11}) *)
        Re.Cat (Re.Lit "youtube.com/shorts/") (Re.Rep 11 (Re.Class id_class)) ]);
    ("tiktok",
      [ (* tiktok\.com\/@[\w\.-]+\/video\/(\d+) *)
        Re.Cat (Re.Lit "tiktok.com/@")
          (Re.Cat (Re.Plus (Re.Class name_class)) (Re.Cat (Re.Lit "/video/") digit_plus));
        (* vm\.tiktok\.com\/(\w+) *)
        Re.Cat (Re.Lit "vm.tiktok.com/") word_plus;
        (* vt\.tiktok\.com\/(\w+) *)
        Re.Cat (Re.Lit "vt.tiktok.com/") word_plus ]);
    ("instagram",
      [ (* instagram\.com\/(?:p|reel|tv)\/([a-zA-Z0-9_-]+) *)
        Re.Cat (Re.Lit "instagram.com/")
          (Re.Cat (Re.Alt (Re.Lit "p") (Re.Alt (Re.Lit "reel") (Re.Lit "tv")))
            (Re.Cat (Re.Lit "/") (Re.Plus (Re.Class id_class)))) ]);
    ("facebook",
      [ (* facebook\.com\/watch\/\?v=(\d+) *)
        Re.Cat (Re.Lit "facebook.com/watch/?v=") digit_plus;
        (* facebook\.com\/[\w\.-]+\/videos\/(\d+) *)
        Re.Cat (Re.Lit "facebook.com/")
          (Re.Cat (Re.Plus (Re.Class name_class)) (Re.Cat (Re.Lit "/videos/") digit_plus));
        (* fb\.watch\/(\w+) *)
        Re.Cat (Re.Lit "fb.watch/") word_plus ]);
    ("twitter",
      [ (* twitter\.com\/[\w\.-]+\/status\/(\d+) *)
        Re.Cat (Re.Lit "twitter.com/")
          (Re.Cat (Re.Plus (Re.Class name_class)) (Re.Cat (Re.Lit "/status/") digit_plus));
        (* x\.com\/[\w\.-]+\/status\/(\d+) *)
        Re.Cat (Re.Lit "x.com/")
          (Re.Cat (Re.Plus (Re.Class name_class)) (Re.Cat (Re.Lit "/status/") digit_plus)) ]);
    ("snapchat",
      [ (* snapchat\.com\/t\/(\w+) *)
        Re.Cat (Re.Lit "snapchat.com/t/") word_plus;
        (* snapchat\.com\/add\/[\w\.-]+ *)
        Re.Cat (Re.Lit "snapchat.com/add/") (Re.Plus (Re.Class name_class)) ]) ].

(** [key in d] and [d[key]] on an insertion-ordered dictionary. *)
Fixpoint dict_get {V : Type} (d : list (string * V)) (key : string) : option V :=
  match d with
  | [] => None
  | (k, v) :: rest => if String.eqb k key then Some v else dict_get rest key
  end.

(* ====================================================================== *)
(** ** [class URLProcessor] *)
(* ====================================================================== *)

Module URLProcessor.

(** [for pattern in patterns: if re.search(pattern, s): return ...] *)
Fixpoint any_pattern (patterns : list Re.regex) (s : string) : bool :=
  match patterns with
  | [] => false
  | pattern :: rest => if Re.search pattern s then true else any_pattern rest s
  end.

(** The two nested loops of [detect_platform] over [dict.items()]. *)
Fixpoint detect_in (items : list (string * list Re.regex)) (url_lower : string)
  : option string :=
  match items with
  | [] => None
  | (platform, patterns) :: rest =>
      if any_pattern patterns url_lower then Some platform
      else detect_in rest url_lower
  end.

Definition detect_platform (url : string) : option string :=
  let url_lower := PyStr.lower url in
  detect_in PLATFORM_PATTERNS url_lower.

(** The block under [if platform == 'tiktok':]: [true] when it returns
    [False]. *)
Definition tiktok_rejects (url_lower : string) : bool :=
  (* Block generic TikTok home/explore pages explicitly *)
  if PyStr.contains "/explore" url_lower then true
  else if PyStr.endswith "tiktok.com/" url_lower || PyStr.endswith "tiktok.com" url_lower
  then true
  (* It MUST contain one of these specific keywords *)
  else if negb (PyStr.contains "/video/" url_lower
                || PyStr.contains "vm.tiktok" url_lower
                || PyStr.contains "vt.tiktok" url_lower)
  then true
  else false.

(** The block under [if platform == 'youtube':]. *)
Definition youtube_rejects (url_lower : string) : bool :=
  negb (PyStr.contains "watch?v=" url_lower
        || PyStr.contains "/shorts/" url_lower
        || PyStr.contains "youtu.be/" url_lower).

(** [platform: str] is [None] or a string at the call sites; [not platform]
    holds for [None] and for the empty string. *)
Definition is_valid_content_url (url : string) (platform : option string) : bool :=
  match platform with
  | None => false
  | Some platform =>
    if PyStr.falsy url || PyStr.falsy platform then false else
    let url_lower := PyStr.lower url in
    if String.eqb platform "tiktok" && tiktok_rejects url_lower then false else
    if String.eqb platform "youtube" && youtube_rejects url_lower then false else
    (* Check against the regex patterns *)
    match dict_get PLATFORM_PATTERNS platform with
    | Some patterns => any_pattern patterns url_lower
    | None => false
    end
  end.

Definition has_scheme (url : string) : bool :=
  PyStr.startswith "http://" url || PyStr.startswith "https://" url.

(** The last step of [sanitize_url]: the block under
    [if not url.startswith(('http://', 'https://'))]. *)
Definition ensure_scheme (url : string) : string :=
  if negb (has_scheme url) then
    if PyStr.startswith "//" url then "https:" ++ url
    else if PyStr.startswith "/" url then "https://" ++ PyStr.lstrip "/" url
    else "https://" ++ url
  else url.

Definition sanitize_url (url : string) : string :=
  if PyStr.falsy url then url else
  let url := PyStr.join_split url in
  let url := if (3 <? PyStr.count "/" url)%nat then PyStr.rstrip "/" url else url in
  ensure_scheme url.

End URLProcessor.

(* ====================================================================== *)
(** ** [class DownloadManager] *)
(* ====================================================================== *)

Module DownloadManager.

(** *** Exceptions, results and the engine's answers *)

(** The two kinds of exception the handlers tell apart, each with [str(e)]:
    [yt_dlp.utils.DownloadError], and any other [Exception].  What is not an
    [Exception] ([KeyboardInterrupt], [SystemExit]) is outside the model. *)
Inductive exn : Type :=
| DownloadError (msg : string)
| OtherException (msg : string).

(** What one [with yt_dlp.YoutubeDL(opts) as ydl] block yields when
    [extract_info(url, download=True)] and [prepare_filename(info)] return:
    the prepared file name, and [info]'s ['title'] entry when it has one. *)
Record download_info : Type := {
  prepared_filename : string;
  info_title : option string
}.

(** The [info] dictionary of a probe; an absent key is [None]. *)
Record info_dict : Type := {
  title : option string;
  duration : option Z;
  thumbnail : option string;
  uploader : option string;
  view_count : option Z
}.

(** The dictionary [get_video_info] returns. *)
Record metadata : Type := {
  m_title : string;
  m_duration : Z;
  m_thumbnail : string;
  m_uploader : string;
  m_view_count : Z
}.

Record postprocessor : Type := {
  key : string;
  preferredcodec : string;
  preferredquality : string
}.

(** [Tuple[bool, Optional[str], Optional[str]]]: success flag, file path,
    then the title on success and the message on failure. *)
Definition outcome : Type := bool * option string * option string.

Definition USER_AGENT : string :=
  "Mozilla/5.0 (Windows NT 10.0; Win64; x64) AppleWebKit/537.36 (KHTML, like Gecko) Chrome/119.0.0.0 Safari/537.36".

(** [str(DOWNLOADS_DIR / '%(title)s.%(ext)s')] *)
Definition OUTTMPL : string := "downloads/%(title)s.%(ext)s".

(** The messages of the failure outcomes, by the reason they stand for. *)
Definition MSG_INVALID_CONTENT_URL : string :=
  "Invalid URL: This is not a specific video link.".
Definition MSG_ARTIFACT_MISSING : string := "File not found after download".
Definition MSG_EXTRACTOR_OUTDATED_INNER : string :=
  "TikTok Security Update. Please update 'yt-dlp': 'pip install --upgrade yt-dlp'".
Definition MSG_EXTRACTOR_OUTDATED : string :=
  "TikTok API Changed. Update yt-dlp: 'pip install --upgrade yt-dlp'".
Definition MSG_PRIVATE_VIDEO : string := "This video is private".
Definition MSG_VIDEO_UNAVAILABLE : string := "Video unavailable or removed".
Definition MSG_AGE_RESTRICTED : string := "Age-restricted content".
Definition MSG_UNSUPPORTED_URL : string :=
  "Unsupported URL. Please ensure you paste a specific video link, not a homepage.".
(** The text of the [st.info] notice (its leading warning sign left out). *)
Definition MSG_FORMAT_FALLBACK : string :=
  "Format error. Trying best available fallback...".

Definition failure (msg : string) : outcome := (false, None, Some msg).

(** *** [_get_format_selector] *)

Definition TIKTOK_QUALITY_MAP : list (string * string) :=
  [ ("best", "best[vcodec!=none][acodec!=none]/bestvideo[ext=mp4]+bestaudio[ext=m4a]/bestvideo+bestaudio/best");
    ("1080p", "best[height<=1080][vcodec!=none][acodec!=none]/bestvideo[height<=1080]+bestaudio/best[height<=1080]");
    ("720p", "best[height<=720][vcodec!=none][acodec!=none]/bestvideo[height<=720]+bestaudio/best[height<=720]");
    ("480p", "best[height<=480][vcodec!=none][acodec!=none]/bestvideo[height<=480]+bestaudio/best[height<=480]");
    ("360p", "best[height<=360][vcodec!=none][acodec!=none]/bestvideo[height<=360]+bestaudio/best[height<=360]") ].

Definition DEFAULT_QUALITY_MAP : list (string * string) :=
  [ ("best", "bestvideo[height<=2160]+bestaudio/best");
    ("1080p", "bestvideo[height<=1080]+bestaudio/best");
    ("720p", "bestvideo[height<=720]+bestaudio/best");
    ("480p", "bestvideo[height<=480]+bestaudio/best");
    ("360p", "bestvideo[height<=360]+bestaudio/best") ].

(** [platform == 'tiktok'] for [platform] a string or [None]. *)
Definition is_tiktok (platform : option string) : bool :=
  match platform with
  | Some p => String.eqb p "tiktok"
  | None => false
  end.

(** [quality_map.get(quality, quality_map['best'])]; the maps above both
    have the key ['best'], the final default is never reached. *)
Definition map_get_or_best (quality_map : list (string * string)) (quality : string)
  : string :=
  match dict_get quality_map quality with
  | Some v => v
  | None => match dict_get quality_map "best" with
            | Some v => v
            | None => ""
            end
  end.

Definition _get_format_selector (quality : string) (extract_audio : bool)
    (platform : option string) : string :=
  if extract_audio then "bestaudio/best"
  else
    let quality_map :=
      if is_tiktok platform then TIKTOK_QUALITY_MAP else DEFAULT_QUALITY_MAP in
    map_get_or_best quality_map quality.

(** The alternatives of a format expression, in preference order: the
    engine reads ["a/b/c"] as a, else b, else c. *)
Definition alternatives (format : string) : list string := PyStr.split "/" format.

(** An alternative asks for one stream that carries both a video and an
    audio codec. *)
Definition combined_codec (alternative : string) : bool :=
  PyStr.startswith "best[" alternative
  && PyStr.contains "[vcodec!=none]" alternative
  && PyStr.contains "[acodec!=none]" alternative.

Section Engine.

(** The type of progress callbacks, and the state of everything outside
    the process (network, platform, disk). *)
Variables (Hook World : Type).

(** *** Engine options *)

Record ydl_opts : Type := {
  format : string;
  outtmpl : string;
  quiet : bool;
  no_warnings : bool;
  noplaylist : bool;
  http_headers : list (string * string);
  extractor_args : option (list (string * list (string * bool)));
  merge_output_format : option string;
  postprocessors : option (list postprocessor);
  progress_hooks : option (list Hook)
}.

Definition set_format (v : string) (o : ydl_opts) : ydl_opts :=
  {| format := v; outtmpl := outtmpl o; quiet := quiet o;
     no_warnings := no_warnings o; noplaylist := noplaylist o;
     http_headers := http_headers o; extractor_args := extractor_args o;
     merge_output_format := merge_output_format o;
     postprocessors := postprocessors o; progress_hooks := progress_hooks o |}.

Definition set_extractor_args (v : option (list (string * list (string * bool))))
    (o : ydl_opts) : ydl_opts :=
  {| format := format o; outtmpl := outtmpl o; quiet := quiet o;
     no_warnings := no_warnings o; noplaylist := noplaylist o;
     http_headers := http_headers o; extractor_args := v;
     merge_output_format := merge_output_format o;
     postprocessors := postprocessors o; progress_hooks := progress_hooks o |}.

Definition set_merge_output_format (v : option string) (o : ydl_opts) : ydl_opts :=
  {| format := format o; outtmpl := outtmpl o; quiet := quiet o;
     no_warnings := no_warnings o; noplaylist := noplaylist o;
     http_headers := http_headers o; extractor_args := extractor_args o;
     merge_output_format := v;
     postprocessors := postprocessors o; progress_hooks := progress_hooks o |}.

Definition set_postprocessors (v : option (list postprocessor)) (o : ydl_opts)
  : ydl_opts :=
  {| format := format o; outtmpl := outtmpl o; quiet := quiet o;
     no_warnings := no_warnings o; noplaylist := noplaylist o;
     http_headers := http_headers o; extractor_args := extractor_args o;
     merge_output_format := merge_output_format o;
     postprocessors := v; progress_hooks := progress_hooks o |}.

Definition set_progress_hooks (v : option (list Hook)) (o : ydl_opts) : ydl_opts :=
  {| format := format o; outtmpl := outtmpl o; quiet := quiet o;
     no_warnings := no_warnings o; noplaylist := noplaylist o;
     http_headers := http_headers o; extractor_args := extractor_args o;
     merge_output_format := merge_output_format o;
     postprocessors := postprocessors o; progress_hooks := v |}.

(** The options of the probe in [get_video_info]. *)
Record probe_opts : Type := {
  p_quiet : bool;
  p_no_warnings : bool;
  p_skip_download : bool;
  p_extractor_args : option (list (string * list (string * bool)));
  p_http_headers : list (string * string)
}.

Definition TIKTOK_EXTRACTOR_ARGS : list (string * list (string * bool)) :=
  [("tiktok", [("webpage_download", true)])].

Definition get_base_opts (quality : string) (extract_audio : bool)
    (platform : option string) : ydl_opts :=
  let format_selector := _get_format_selector quality extract_audio platform in
  (* Common headers to mimic a real browser *)
  let http_headers := [("User-Agent", USER_AGENT)] in
  (* Add referer for TikTok *)
  let http_headers :=
    if is_tiktok platform
    then (http_headers ++ [("Referer", "https://www.tiktok.com/")])%list
    else http_headers in
  let opts :=
    {| format := format_selector; outtmpl := OUTTMPL; quiet := false;
       no_warnings := false; noplaylist := true; http_headers := http_headers;
       extractor_args := None; merge_output_format := None;
       postprocessors := None; progress_hooks := None |} in
  let opts :=
    if is_tiktok platform then
      let opts := set_extractor_args (Some TIKTOK_EXTRACTOR_ARGS) opts in
      (* IMPORTANT: Allow merging to ensure audio is included *)
      if negb extract_audio then set_merge_output_format (Some "mp4") opts else opts
    else opts in
  if extract_audio then
    set_postprocessors
      (Some [ {| key := "FFmpegExtractAudio"; preferredcodec := "mp3";
                 preferredquality := "192" |} ]) opts
  else if negb (is_tiktok platform) then set_merge_output_format (Some "mp4") opts
  else opts.

(** *** The world outside: engine and file system *)

(** One download run of the engine, [YoutubeDL(opts)] through
    [prepare_filename]: it raises or yields the file name and the title. *)
Variable engine_download :
  ydl_opts -> string -> World -> (exn + download_info) * World.

(** One probe, [extract_info(url, download=False)]: it raises or returns
    [info], which may be [None]. *)
Variable engine_probe :
  probe_opts -> string -> World -> (exn + option info_dict) * World.

(** [os.path.exists] *)
Variable path_exists : string -> World -> bool.

(** What the function did, oldest first. *)
Inductive event : Type :=
| EngineDownload (opts : ydl_opts) (url : string)
| EngineProbe (opts : probe_opts) (url : string)
| StInfo (msg : string).

Record state : Type := { world : World; trace : list event }.

(** Computations that read and change the state and may raise. *)
Definition M (A : Type) : Type := state -> (exn + A) * state.

Definition ret {A} (a : A) : M A := fun s => (inr a, s).

Definition raise {A} (e : exn) : M A := fun s => (inl e, s).

Definition bind {A B} (m : M A) (k : A -> M B) : M B :=
  fun s => match m s with
           | (inr a, s') => k a s'
           | (inl e, s') => (inl e, s')
           end.

(** [try: body  except ...: handler] *)
Definition try_except {A} (body : M A) (handler : exn -> M A) : M A :=
  fun s => match body s with
           | (inr a, s') => (inr a, s')
           | (inl e, s') => handler e s'
           end.

Definition log (ev : event) : M unit :=
  fun s => (inr tt, {| world := world s; trace := (trace s ++ [ev])%list |}).

Definition run_download (opts : ydl_opts) (url : string) : M download_info :=
  fun s =>
    let '(r, w) := engine_download opts url (world s) in
    (r, {| world := w; trace := (trace s ++ [EngineDownload opts url])%list |}).

Definition run_probe (opts : probe_opts) (url : string) : M (option info_dict) :=
  fun s =>
    let '(r, w) := engine_probe opts url (world s) in
    (r, {| world := w; trace := (trace s ++ [EngineProbe opts url])%list |}).

Definition os_path_exists (path : string) : M bool :=
  fun s => (inr (path_exists path (world s)), s).

Notation "x <- m ;; k" := (bind m (fun x => k))
  (at level 61, m at next level, right associativity).
Notation "m ;;; k" := (bind m (fun _ => k))
  (at level 61, right associativity).

(** *** [get_video_info] *)

Definition get_or {A} (v : option A) (default : A) : A :=
  match v with Some a => a | None => default end.

(** The [opts] dictionary that [get_video_info] builds. *)
Definition probe_options (platform : option string) : probe_opts :=
  {| p_quiet := true; p_no_warnings := true; p_skip_download := true;
     p_extractor_args :=
       if is_tiktok platform then Some TIKTOK_EXTRACTOR_ARGS else None;
     p_http_headers :=
       if is_tiktok platform
       then [("User-Agent", USER_AGENT); ("Referer", "https://www.tiktok.com/")]
       else [("User-Agent", USER_AGENT)] |}.

Definition get_video_info (url : string) (platform : option string)
  : M (option metadata) :=
  try_except
    (let resolved_url := URLProcessor.sanitize_url url in
     let opts := probe_options platform in
     info <- run_probe opts resolved_url ;;
     match info with
     | Some info =>
         ret (Some {| m_title := get_or (title info) "Unknown";
                      m_duration := get_or (duration info) 0%Z;
                      m_thumbnail := get_or (thumbnail info) "";
                      m_uploader := get_or (uploader info) "Unknown";
                      m_view_count := get_or (view_count info) 0%Z |})
     | None =>
         (* [info.get] on [None] *)
         raise (OtherException "'NoneType' object has no attribute 'get'")
     end)
    (fun _ => ret None).

(** *** [download_video] *)

(** The body of a [with yt_dlp.YoutubeDL(opts) as ydl] block; the source
    has it twice, for the first attempt and for the fallback. *)
(** The name of the artifact: [filename.rsplit('.', 1)[0] + '.mp3'] when
    the audio is extracted, the prepared file name otherwise. *)
Definition final_filename (extract_audio : bool) (info : download_info) : string :=
  let filename := prepared_filename info in
  if extract_audio then PyStr.rsplit1_head "." filename ++ ".mp3" else filename.

Definition attempt (opts : ydl_opts) (resolved_url : string) (extract_audio : bool)
  : M outcome :=
  info <- run_download opts resolved_url ;;
  let filename := final_filename extract_audio info in
  found <- os_path_exists filename ;;
  if found
  then ret (true, Some filename, Some (get_or (info_title info) "Downloaded Video"))
  else ret (failure MSG_ARTIFACT_MISSING).

(** The handler of the outer [except yt_dlp.utils.DownloadError as e]. *)
Definition classify_download_error (error_msg : string) : outcome :=
  if PyStr.contains "Unable to extract sigi state" error_msg then
    failure MSG_EXTRACTOR_OUTDATED
  else if PyStr.contains "Private video" error_msg
          || PyStr.contains "private" (PyStr.lower error_msg) then
    failure MSG_PRIVATE_VIDEO
  else if PyStr.contains "Video unavailable" error_msg
          || PyStr.contains "unavailable" (PyStr.lower error_msg) then
    failure MSG_VIDEO_UNAVAILABLE
  else if PyStr.contains "Sign in to confirm your age" error_msg
          || PyStr.contains "age" (PyStr.lower error_msg) then
    failure MSG_AGE_RESTRICTED
  else if PyStr.contains "Unsupported URL" error_msg then
    failure MSG_UNSUPPORTED_URL
  else failure ("Download error: " ++ error_msg).

(** The options of the fallback attempt: [opts['format'] = 'best/best']
    and [del opts['merge_output_format']] when the key is there. *)
Definition fallback_opts (opts : ydl_opts) : ydl_opts :=
  let opts := set_format "best/best" opts in
  (* Force basic download *)
  set_merge_output_format None opts.

(** [if progress_hook: opts['progress_hooks'] = [progress_hook]] *)
Definition with_progress_hook (progress_hook : option Hook) (opts : ydl_opts)
  : ydl_opts :=
  match progress_hook with
  | Some hook => set_progress_hooks (Some [hook]) opts
  | None => opts
  end.

(** The handler of the inner [except yt_dlp.utils.DownloadError as
    format_error]; any other exception passes through it. *)
Definition format_error_handler (opts : ydl_opts) (resolved_url : string)
    (extract_audio : bool) (e : exn) : M outcome :=
  match e with
  | DownloadError error_msg =>
      if PyStr.contains "Unable to extract sigi state" error_msg then
        ret (failure MSG_EXTRACTOR_OUTDATED_INNER)
      (* Generic format fallback *)
      else if PyStr.contains "Requested format is not available" error_msg
              || PyStr.contains "format" (PyStr.lower error_msg) then
        log (StInfo MSG_FORMAT_FALLBACK) ;;;
        let opts := fallback_opts opts in
        attempt opts resolved_url extract_audio
      else raise (DownloadError error_msg)
  | OtherException _ => raise e
  end.

Definition download_video (url : string) (quality : string) (extract_audio : bool)
    (progress_hook : option Hook) (platform : option string) : M outcome :=
  try_except
    (let resolved_url := URLProcessor.sanitize_url url in
     (* Double check before calling yt-dlp to prevent logs spam *)
     if negb (URLProcessor.is_valid_content_url resolved_url platform) then
       ret (failure MSG_INVALID_CONTENT_URL)
     else
       let opts := get_base_opts quality extract_audio platform in
       let opts := with_progress_hook progress_hook opts in
       try_except (attempt opts resolved_url extract_audio)
                  (format_error_handler opts resolved_url extract_audio))
    (fun e =>
       match e with
       | DownloadError error_msg => ret (classify_download_error error_msg)
       | OtherException msg => ret (failure ("Unexpected error: " ++ msg))
       end).

(** *** Observations on a run *)

Definition initial (w : World) : state := {| world := w; trace := [] |}.

Definition is_engine_download (ev : event) : bool :=
  match ev with EngineDownload _ _ => true | _ => false end.

(** How many times the run invoked the engine to download. *)
Definition engine_calls (s : state) : nat :=
  List.length (filter is_engine_download (trace s)).

End Engine.

Arguments EngineDownload {Hook} opts url.
Arguments EngineProbe {Hook} opts url.
Arguments StInfo {Hook} msg.
Arguments Build_state {Hook World} world trace.
Arguments world {Hook World} s.
Arguments trace {Hook World} s.
Arguments initial {Hook World} w.
Arguments engine_calls {Hook World} s.
Arguments format {Hook} y.
Arguments outtmpl {Hook} y.
Arguments quiet {Hook} y.
Arguments no_warnings {Hook} y.
Arguments noplaylist {Hook} y.
Arguments http_headers {Hook} y.
Arguments extractor_args {Hook} y.
Arguments merge_output_format {Hook} y.
Arguments postprocessors {Hook} y.
Arguments progress_hooks {Hook} y.
Arguments fallback_opts {Hook} opts.
Arguments with_progress_hook {Hook} progress_hook opts.
Arguments get_base_opts {Hook} quality extract_audio platform.

End DownloadManager.

(* ====================================================================== *)
(** ** A scripted engine *)
(* ====================================================================== *)

(** An engine that replays prepared answers, one per call, next to a disk
    that holds a fixed set of files: the test double on which the properties
    below are run. *)
Module Scripted.

Import DownloadManager.

Record world : Type := {
  downloads : list (exn + download_info);
  probes : list (exn + option info_dict);
  files : list string
}.

Definition engine_download (opts : ydl_opts unit) (url : string) (w : world)
  : (exn + download_info) * world :=
  match downloads w with
  | [] => (inl (OtherException "script exhausted"), w)
  | answer :: rest =>
      (answer, {| downloads := rest; probes := probes w; files := files w |})
  end.

Definition engine_probe (opts : probe_opts) (url : string) (w : world)
  : (exn + option info_dict) * world :=
  match probes w with
  | [] => (inl (OtherException "script exhausted"), w)
  | answer :: rest =>
      (answer, {| downloads := downloads w; probes := rest; files := files w |})
  end.

Definition path_exists (path : string) (w : world) : bool :=
  existsb (String.eqb path) (files w).

Definition download_video :=
  DownloadManager.download_video unit world engine_download path_exists.

Definition get_video_info :=
  DownloadManager.get_video_info unit world engine_probe.

Definition start (w : world) : state unit world := initial w.

(** *** Scripts *)

Definition clip : download_info :=
  {| prepared_filename := "downloads/clip.mp4"; info_title := Some "clip" |}.

(** An engine with nothing to do and an empty disk. *)
Definition idle : world := {| downloads := []; probes := []; files := [] |}.

(** The requested format is missing on the first run; the second run
    succeeds and the file is on disk. *)
Definition format_error_then_success : world :=
  {| downloads := [ inl (DownloadError "ERROR: Requested format is not available");
                    inr clip ];
     probes := [];
     files := ["downloads/clip.mp4"] |}.

Definition PRIVATE_VIDEO_ERROR : string :=
  "ERROR: [youtube] dQw4w9WgXcQ: Private video. Sign in if you've been granted access to this video".

(** The video is private. *)
Definition private_video : world :=
  {| downloads := [inl (DownloadError PRIVATE_VIDEO_ERROR)]; probes := []; files := [] |}.

Definition OUTDATED_PRIVATE_ERROR : string :=
  "ERROR: Unable to extract sigi state; Private video".

(** The message of the error has the extractor-outdated marker next to
    ["Private video"]. *)
Definition outdated_private : world :=
  {| downloads := [inl (DownloadError OUTDATED_PRIVATE_ERROR)];
     probes := []; files := [] |}.

Definition PRIVATE_FORMAT_ID_ERROR : string :=
  "ERROR: [youtube] xFORMATx_01: Private video. Sign in if you've been granted access to this video".

(** The video is private and its identifier spells FORMAT; the engine gives
    the same answer on every run. *)
Definition private_with_format_id : world :=
  {| downloads := [ inl (DownloadError PRIVATE_FORMAT_ID_ERROR);
                    inl (DownloadError PRIVATE_FORMAT_ID_ERROR) ];
     probes := []; files := [] |}.

(** The probe fails on the network. *)
Definition probe_failure : world :=
  {| downloads := [];
     probes := [inl (DownloadError "ERROR: Unable to download webpage")];
     files := [] |}.

End Scripted.

(* ====================================================================== *)
(** ** The specification's wording, where it is compared with the code *)
(* ====================================================================== *)

Module Spec.

(** "strips one trailing [/]" *)
Fixpoint strip_one_trailing (c : ascii) (s : string) : string :=
  match s with
  | EmptyString => EmptyString
  | String a EmptyString => if Ascii.eqb a c then EmptyString else s
  | String a t => String a (strip_one_trailing c t)
  end.

(** [normalize] as section 4.1 words it: white space removed, one trailing
    [/] stripped when the result has more than three, then the scheme. *)
Definition normalize (raw : string) : string :=
  if PyStr.falsy raw then raw else
  let url := PyStr.join_split raw in
  let url :=
    if (3 <? PyStr.count "/" url)%nat then strip_one_trailing "/" url else url in
  URLProcessor.ensure_scheme url.

(** The height bound of a quality tier; the tier "best" has none. *)
Definition height_cap (quality : string) : option string :=
  if String.eqb quality "1080p" then Some "1080"
  else if String.eqb quality "720p" then Some "720"
  else if String.eqb quality "480p" then Some "480"
  else if String.eqb quality "360p" then Some "360"
  else None.

(** The alternative is bounded by the tier's height cap, and carries no
    height bound when the tier has none. *)
Definition capped_for (quality alternative : string) : bool :=
  match height_cap quality with
  | Some h => PyStr.contains ("[height<=" ++ h ++ "]") alternative
  | None => negb (PyStr.contains "[height" alternative)
  end.

(** "separate best-video + best-audio": a [+] pair of a [bestvideo] and a
    [bestaudio] selector. *)
Definition video_audio_pair (alternative : string) : option (string * string) :=
  match PyStr.split "+" alternative with
  | [v; a] =>
      if PyStr.startswith "bestvideo" v && PyStr.startswith "bestaudio" a
      then Some (v, a) else None
  | _ => None
  end.

(** "with matching container": both halves name a container. *)
Definition pair_matching_container (alternative : string) : bool :=
  match video_audio_pair alternative with
  | Some (v, a) => PyStr.contains "[ext=" v && PyStr.contains "[ext=" a
  | None => false
  end.

(** "of any container": neither half names one. *)
Definition pair_any_container (alternative : string) : bool :=
  match video_audio_pair alternative with
  | Some (v, a) => negb (PyStr.contains "[ext=" v) && negb (PyStr.contains "[ext=" a)
  | None => false
  end.

(** The four ordered alternatives section 4.4 gives for tiktok: a combined
    stream under the tier's cap, a pair with matching container, a pair of
    any container, the generic "best". *)
Definition tiered (quality : string) (alts : list string) : bool :=
  match alts with
  | [a1; a2; a3; a4] =>
      DownloadManager.combined_codec a1 && capped_for quality a1
      && pair_matching_container a2
      && pair_any_container a3
      && String.eqb a4 "best"
  | _ => false
  end.

End Spec.

(* ====================================================================== *)
(** ** The session: [handle_download] and the history list *)
(* ====================================================================== *)

Module App.

Import DownloadManager.

(** What [download_video] returns for an engine run that gave [info], in
    the world [w] the run left: the [if os.path.exists(filename)] at the end
    of each [with] block. *)
Definition attempt_outcome {World : Type} (path_exists : string -> World -> bool)
    (extract_audio : bool) (info : download_info) (w : World) : outcome :=
  if path_exists (final_filename extract_audio info) w
  then (true, Some (final_filename extract_audio info),
        Some (get_or (info_title info) "Downloaded Video"))
  else failure MSG_ARTIFACT_MISSING.

(** [os.path.basename] on a POSIX path: what follows the last ['/']. *)
Fixpoint basename (path : string) : string :=
  match path with
  | EmptyString => EmptyString
  | String a t =>
      if (0 <? PyStr.count "/" t)%nat then basename t
      else if Ascii.eqb a "/" then t
      else path
  end.

(** The dictionary [history_item]. *)
Record history_item : Type := {
  h_url : string;
  h_platform : option string;
  h_title : option string;
  h_filepath : string;
  h_date : string
}.

(** The two keys of [st.session_state] that the download path uses.
    [download_in_progress] is read through [.get], so a missing key counts
    as [False]; [download_history] may be missing. *)
Record session : Type := {
  download_in_progress : bool;
  download_history : option (list history_item)
}.

(** What the page shows, oldest first; the decoration of the texts is left
    out. *)
Inductive ui_event : Type :=
| UiWarning (msg : string)                        (* st.warning *)
| UiContainerEmpty                                (* progress_container.empty() *)
| UiSuccess (message : option string)             (* st.success *)
| UiBalloons                                      (* st.balloons *)
| UiDownloadButton (data file_name mime : string) (* st.download_button *)
| UiError (msg : string)                          (* st.error *)
| UiRerun.                                        (* st.rerun *)

(** [str(x)] for an optional string inside an f-string. *)
Definition str_of (message : option string) : string :=
  match message with Some m => m | None => "None" end.

Definition exn_str (e : exn) : string :=
  match e with DownloadError msg => msg | OtherException msg => msg end.

(** Truth value of an optional string: [None] and the empty string are falsy. *)
Definition truthy (v : option string) : bool :=
  match v with Some s => negb (PyStr.falsy s) | None => false end.

(** [history[-n:]] *)
Definition last_n {A : Type} (n : nat) (l : list A) : list A :=
  skipn (List.length l - n) l.

(** The entries [render_history] shows: [reversed(history[-5:])]. *)
Definition shown_history (history : list history_item) : list history_item :=
  rev (last_n 5 history).

(** The list comprehension of the delete button:
    [[h for h in history if h.get('filepath') != fpath]]. *)
Definition without_filepath (fpath : string) (history : list history_item)
  : list history_item :=
  filter (fun h => negb (String.eqb (h_filepath h) fpath)) history.

Section Session.

Variables (Hook World : Type).
Variable engine_download :
  ydl_opts Hook -> string -> World -> (exn + download_info) * World.
Variable path_exists : string -> World -> bool.

(** [open(filepath, 'rb').read()]: the content, or the exception raised. *)
Variable read_file : string -> World -> exn + string.

(** [os.remove] *)
Variable os_remove : string -> World -> (exn + unit) * World.

(** [datetime.now().strftime('%Y-%m-%d %H:%M:%S')] *)
Variable now : World -> string.

(** The closure [my_hook] that reports progress. *)
Variable my_hook : Hook.

(** The engine side, the session and the page. *)
Record app : Type := {
  core : state Hook World;
  sess : session;
  ui : list ui_event
}.

Definition show (ev : ui_event) (a : app) : app :=
  {| core := core a; sess := sess a; ui := (ui a ++ [ev])%list |}.

Definition set_in_progress (v : bool) (a : app) : app :=
  {| core := core a;
     sess := {| download_in_progress := v;
                download_history := download_history (sess a) |};
     ui := ui a |}.

(** [if 'download_history' not in st.session_state: ... = []] followed by
    [.append(history_item)]. *)
Definition append_history (item : history_item) (a : app) : app :=
  let history :=
    match download_history (sess a) with
    | Some history => history
    | None => []
    end in
  {| core := core a;
     sess := {| download_in_progress := download_in_progress (sess a);
                download_history := Some (history ++ [item])%list |};
     ui := ui a |}.

(** The [try] block of [handle_download] from the return of
    [download_video] on; an exception of [open] is handled by the
    [except Exception] clause. *)
Definition after_download (url : string) (platform : option string)
    (extract_audio : bool) (result : outcome) (a : app) : app :=
  let '(success, filepath, message) := result in
  let a := show UiContainerEmpty a in
  if success && truthy filepath then
    let filepath := str_of filepath in
    let history_item :=
      {| h_url := url; h_platform := platform; h_title := message;
         h_filepath := filepath; h_date := now (world (core a)) |} in
    let a := append_history history_item a in
    let a := show (UiSuccess message) a in
    let a := show UiBalloons a in
    match read_file filepath (world (core a)) with
    | inr data =>
        show (UiDownloadButton data (basename filepath)
                (if negb extract_audio then "video/mp4" else "audio/mpeg")) a
    | inl e => show (UiError ("Critical Error: " ++ exn_str e)) a
    end
  else show (UiError (str_of message)) a.

Definition handle_download (url : string) (platform : option string)
    (quality : string) (extract_audio : bool) (a : app) : app :=
  if download_in_progress (sess a) then show (UiWarning "Download in progress...") a
  else
    let a := set_in_progress true a in
    let '(r, core') :=
      download_video Hook World engine_download path_exists
        url quality extract_audio (Some my_hook) platform (core a) in
    let a := {| core := core'; sess := sess a; ui := ui a |} in
    let a :=
      match r with
      | inr result => after_download url platform extract_audio result a
      | inl e => show (UiError ("Critical Error: " ++ exn_str e)) a
      end in
    (* finally *)
    set_in_progress false a.

(** The body of the delete button of [render_history]; [None] stands for the
    attribute error on a session without history, [os.remove] may raise. *)
Definition delete_history_entry (fpath : string) (a : app) : (exn + unit) * app :=
  match download_history (sess a) with
  | None =>
      (inl (OtherException "st.session_state has no attribute 'download_history'"), a)
  | Some history =>
      let sess' := {| download_in_progress := download_in_progress (sess a);
                      download_history := Some (without_filepath fpath history) |} in
      if path_exists fpath (world (core a)) then
        let '(r, w) := os_remove fpath (world (core a)) in
        let core' := {| world := w; trace := trace (core a) |} in
        match r with
        | inr _ => (inr tt, show UiRerun {| core := core'; sess := sess'; ui := ui a |})
        | inl e => (inl e, {| core := core'; sess := sess'; ui := ui a |})
        end
      else (inr tt, show UiRerun {| core := core a; sess := sess'; ui := ui a |})
  end.

(** The history of a session, empty when the key is missing:
    [st.session_state.get('download_history', [])]. *)
Definition history_of (a : app) : list history_item :=
  match download_history (sess a) with
  | Some history => history
  | None => []
  end.

End Session.

Arguments core {Hook World} a.
Arguments sess {Hook World} a.
Arguments ui {Hook World} a.
Arguments Build_app {Hook World} core sess ui.
Arguments history_of {Hook World} a.
Arguments show {Hook World} ev a.
Arguments set_in_progress {Hook World} v a.
Arguments append_history {Hook World} item a.

End App.

(* ====================================================================== *)
(** ** The session on the scripted engine *)
(* ====================================================================== *)

Module ScriptedApp.

Import DownloadManager.

(** Reading a file of the scripted disk: every file holds the same bytes. *)
Definition read_file (path : string) (w : Scripted.world) : exn + string :=
  if Scripted.path_exists path w then inr "bytes"
  else inl (OtherException "[Errno 2] No such file or directory").

(** Removing a file of the scripted disk. *)
Definition os_remove (path : string) (w : Scripted.world)
  : (exn + unit) * Scripted.world :=
  (inr tt,
   {| Scripted.downloads := Scripted.downloads w;
      Scripted.probes := Scripted.probes w;
      Scripted.files := filter (fun f => negb (String.eqb f path)) (Scripted.files w) |}).

(** A clock that stands still. *)
Definition now (w : Scripted.world) : string := "2025-01-01 12:00:00".

Definition handle_download :=
  App.handle_download unit Scripted.world Scripted.engine_download
    Scripted.path_exists read_file now tt.

Definition delete_history_entry :=
  App.delete_history_entry unit Scripted.world Scripted.path_exists os_remove.

(** A page that has just been opened on the world [w]. *)
Definition fresh (w : Scripted.world) : App.app unit Scripted.world :=
  {| App.core := Scripted.start w;
     App.sess := {| App.download_in_progress := false;
                    App.download_history := Some [] |};
     App.ui := [] |}.

(** The same page while a download is running. *)
Definition busy (w : Scripted.world) : App.app unit Scripted.world :=
  {| App.core := Scripted.start w;
     App.sess := {| App.download_in_progress := true;
                    App.download_history := Some [] |};
     App.ui := [] |}.

(** *** More scripts *)

(** An audio download: the engine reports the intermediate container, the
    post-processor has left the mp3. *)
Definition audio_success : Scripted.world :=
  {| Scripted.downloads :=
       [inr {| prepared_filename := "downloads/song.webm"; info_title := Some "song" |}];
     Scripted.probes := [];
     Scripted.files := ["downloads/song.mp3"] |}.

(** The disk is full. *)
Definition disk_full : Scripted.world :=
  {| Scripted.downloads := [inl (OtherException "[Errno 28] No space left on device")];
     Scripted.probes := []; Scripted.files := [] |}.

Definition WEBPAGE_ERROR : string :=
  "ERROR: [Instagram] Cabc: Unable to download webpage: timed out".

(** The network fails while the page is fetched. *)
Definition network_down : Scripted.world :=
  {| Scripted.downloads := [inl (DownloadError WEBPAGE_ERROR)];
     Scripted.probes := []; Scripted.files := [] |}.

Definition OUTDATED_FORMAT_ERROR : string :=
  "ERROR: Unable to extract sigi state; no video formats found".

(** The extractor is outdated and the message speaks of formats. *)
Definition outdated_with_format : Scripted.world :=
  {| Scripted.downloads := [inl (DownloadError OUTDATED_FORMAT_ERROR); inr Scripted.clip];
     Scripted.probes := []; Scripted.files := ["downloads/clip.mp4"] |}.

(** One successful download with its file on disk. *)
Definition one_success : Scripted.world :=
  {| Scripted.downloads := [inr Scripted.clip];
     Scripted.probes := []; Scripted.files := ["downloads/clip.mp4"] |}.

Definition entry (path title : string) : App.history_item :=
  {| App.h_url := "https://youtu.be/dQw4w9WgXcQ"; App.h_platform := Some "youtube";
     App.h_title := Some title; App.h_filepath := path;
     App.h_date := "2025-01-01 12:00:00" |}.

(** A page whose history has two entries for the same file and one for
    another. *)
Definition with_history (w : Scripted.world)
  : App.app unit Scripted.world :=
  {| App.core := Scripted.start w;
     App.sess := {| App.download_in_progress := false;
                    App.download_history :=
                      Some [ entry "downloads/clip.mp4" "clip";
                             entry "downloads/song.mp3" "song";
                             entry "downloads/clip.mp4" "clip" ] |};
     App.ui := [] |}.

End ScriptedApp.

(* ====================================================================== *)
(** ** Facts about the string primitives *)
(* ====================================================================== *)

Import PyStr.
Local Open Scope nat_scope.

Lemma ascii_eqb_true (a b : ascii) : Ascii.eqb a b = true <-> a = b.
Proof. apply Ascii.eqb_eq. Qed.

Lemma append_assoc (a b c : string) : (a ++ b) ++ c = a ++ b ++ c.
Proof. induction a as [|x a IH]; simpl; [reflexivity | now rewrite IH]. Qed.

Lemma startswith_spec (p s : string) :
  startswith p s = true <-> exists t, s = p ++ t.
Proof.
  revert s; induction p as [|a p IH]; intros s; simpl.
  - split; [intros _; now exists s | reflexivity].
  - destruct s as [|b s].
    + split; [discriminate | intros [t H]; discriminate].
    + rewrite andb_true_iff, ascii_eqb_true, IH. split.
      * intros [-> [t ->]]. now exists t.
      * intros [t H]. injection H as -> ->. split; [reflexivity | now exists t].
Qed.

Lemma startswith_append (p t : string) : startswith p (p ++ t) = true.
Proof. apply startswith_spec. now exists t. Qed.

Lemma contains_spec (p s : string) :
  contains p s = true <-> exists a b, s = a ++ p ++ b.
Proof.
  induction s as [|c s IH]; simpl.
  - rewrite orb_false_r, startswith_spec. split.
    + intros [t H]. now exists "", t.
    + intros [a [b H]]. destruct a; simpl in H.
      * now exists b.
      * discriminate.
  - rewrite orb_true_iff, startswith_spec, IH. split.
    + intros [[t H] | [a [b H]]].
      * now exists "", t.
      * exists (String c a), b. simpl. now rewrite H.
    + intros [a [b H]]. destruct a as [|x a]; simpl in H.
      * left. now exists b.
      * right. injection H as _ H. now exists a, b.
Qed.

Lemma endswith_spec (p s : string) :
  endswith p s = true <-> exists a, s = a ++ p.
Proof.
  induction s as [|c s IH]; simpl.
  - rewrite orb_false_r, String.eqb_eq. split.
    + intros ->. now exists "".
    + intros [a H]. destruct a; simpl in H; [now symmetry | discriminate].
  - rewrite orb_true_iff, String.eqb_eq, IH. split.
    + intros [-> | [a ->]]; [now exists "" | now exists (String c a)].
    + intros [a H]. destruct a as [|x a]; simpl in H.
      * now left.
      * right. injection H as _ H. now exists a.
Qed.

Lemma lower_append (a b : string) : lower (a ++ b) = lower a ++ lower b.
Proof. induction a as [|x a IH]; simpl; [reflexivity | now rewrite IH]. Qed.

(** Lower-casing keeps every occurrence of a substring, lower-cased. *)
Lemma contains_lower (p s : string) :
  contains p s = true -> contains (lower p) (lower s) = true.
Proof.
  rewrite !contains_spec. intros [a [b ->]].
  exists (lower a), (lower b). now rewrite !lower_append.
Qed.

Lemma count_append (c : ascii) (a b : string) :
  count c (a ++ b) = count c a + count c b.
Proof. induction a as [|x a IH]; simpl; [reflexivity | rewrite IH; lia]. Qed.

Lemma count_replicate (c : ascii) (k : nat) : count c (replicate k c) = k.
Proof. induction k as [|k IH]; simpl; [reflexivity | now rewrite Ascii.eqb_refl, IH]. Qed.

Lemma all_chars_append (f : ascii -> bool) (a b : string) :
  all_chars f (a ++ b) = all_chars f a && all_chars f b.
Proof. induction a as [|x a IH]; simpl; [reflexivity | now rewrite IH, andb_assoc]. Qed.

(** *** White space *)

Lemma join_split_nonspace (s : string) : all_chars nonspace (join_split s) = true.
Proof.
  induction s as [|a t IH]; simpl; [reflexivity|].
  destruct (isspace a) eqn:E; simpl; [exact IH|].
  unfold nonspace at 1. now rewrite E, IH.
Qed.

Lemma join_split_fixed (s : string) :
  all_chars nonspace s = true -> join_split s = s.
Proof.
  induction s as [|a t IH]; simpl; [reflexivity|].
  rewrite andb_true_iff. unfold nonspace at 1. intros [Ha Ht].
  apply negb_true_iff in Ha. rewrite Ha. now rewrite IH.
Qed.

(** *** Stripping *)

Lemma rstrip_decompose (c : ascii) (s : string) :
  exists k, s = rstrip c s ++ replicate k c.
Proof.
  induction s as [|a t [k IH]]; simpl.
  - now exists 0.
  - destruct (rstrip c t) as [|b r] eqn:E.
    + destruct (Ascii.eqb a c) eqn:Ea.
      * apply ascii_eqb_true in Ea. subst a. exists (S k). simpl. now rewrite IH at 1.
      * exists k. simpl. now rewrite IH at 1.
    + exists k. simpl. simpl in IH. now rewrite IH at 1.
Qed.

Lemma rstrip_no_trailing (c : ascii) (s : string) :
  endswith (String c "") (rstrip c s) = false.
Proof.
  induction s as [|a t IH]; cbn [rstrip]; [reflexivity|].
  destruct (rstrip c t) as [|b r] eqn:E.
  - destruct (Ascii.eqb a c) eqn:Ea; simpl; [reflexivity|].
    rewrite Ascii.eqb_sym, Ea. reflexivity.
  - change (endswith (String c "") (String a (String b r)))
      with (String.eqb (String c "") (String a (String b r))
            || endswith (String c "") (String b r)).
    rewrite IH, orb_false_r. simpl. now destruct (Ascii.eqb c a).
Qed.

Lemma rstrip_fixed (c : ascii) (s : string) :
  endswith (String c "") s = false -> rstrip c s = s.
Proof.
  induction s as [|a t IH]; simpl; [reflexivity|].
  rewrite orb_false_iff. intros [H1 H2].
  destruct t as [|b r].
  - simpl. rewrite Ascii.eqb_sym. destruct (Ascii.eqb c a); [discriminate | reflexivity].
  - rewrite (IH H2). reflexivity.
Qed.

Lemma rstrip_idempotent (c : ascii) (s : string) :
  rstrip c (rstrip c s) = rstrip c s.
Proof. apply rstrip_fixed, rstrip_no_trailing. Qed.

Lemma rstrip_append (c : ascii) (p s : string) :
  rstrip c s <> "" -> rstrip c (p ++ s) = p ++ rstrip c s.
Proof.
  intros H. induction p as [|a p IH]; simpl; [reflexivity|].
  rewrite IH. destruct p as [|b p]; simpl.
  - destruct (rstrip c s); [contradiction | reflexivity].
  - reflexivity.
Qed.

Lemma rstrip_empty (c : ascii) (s : string) :
  rstrip c s = "" -> exists k, s = replicate k c.
Proof.
  intros H. destruct (rstrip_decompose c s) as [k E]. rewrite H in E. now exists k.
Qed.

Lemma all_chars_rstrip (f : ascii -> bool) (c : ascii) (s : string) :
  all_chars f s = true -> all_chars f (rstrip c s) = true.
Proof.
  intros H. destruct (rstrip_decompose c s) as [k E].
  rewrite E, all_chars_append in H. now apply andb_true_iff in H.
Qed.

Lemma lstrip_decompose (c : ascii) (s : string) :
  exists k, s = replicate k c ++ lstrip c s.
Proof.
  induction s as [|a t [k IH]]; simpl.
  - now exists 0.
  - destruct (Ascii.eqb a c) eqn:Ea.
    + apply ascii_eqb_true in Ea. subst a. exists (S k). simpl. now rewrite IH at 1.
    + now exists 0.
Qed.

Lemma lstrip_no_leading (c : ascii) (s : string) :
  startswith (String c "") (lstrip c s) = false.
Proof.
  induction s as [|a t IH]; simpl; [reflexivity|].
  destruct (Ascii.eqb a c) eqn:Ea; [exact IH|].
  simpl. rewrite Ascii.eqb_sym, Ea. reflexivity.
Qed.

Lemma all_chars_lstrip (f : ascii -> bool) (c : ascii) (s : string) :
  all_chars f s = true -> all_chars f (lstrip c s) = true.
Proof.
  intros H. destruct (lstrip_decompose c s) as [k E].
  rewrite E, all_chars_append in H. now apply andb_true_iff in H.
Qed.

Lemma rstrip_replicate (c : ascii) (k : nat) : rstrip c (replicate k c) = "".
Proof.
  induction k as [|k IH]; simpl; [reflexivity|].
  now rewrite IH, Ascii.eqb_refl.
Qed.

Lemma replicate_no_leading (c : ascii) (k : nat) :
  startswith (String c "") (replicate k c) = false -> k = 0.
Proof. destruct k; simpl; [reflexivity | now rewrite Ascii.eqb_refl]. Qed.

(* ====================================================================== *)
(** ** [URLProcessor.sanitize_url] *)
(* ====================================================================== *)

Import URLProcessor.

Lemma has_scheme_https (t : string) : has_scheme ("https://" ++ t) = true.
Proof.
  unfold has_scheme. rewrite (startswith_append "https://" t). apply orb_true_r.
Qed.

Lemma ensure_scheme_has_scheme (u : string) : has_scheme (ensure_scheme u) = true.
Proof.
  unfold ensure_scheme. destruct (has_scheme u) eqn:Hs; cbn [negb]; [exact Hs|].
  destruct (startswith "//" u) eqn:H2.
  - apply startswith_spec in H2. destruct H2 as [t ->]. apply (has_scheme_https t).
  - destruct (startswith "/" u); apply has_scheme_https.
Qed.

Lemma ensure_scheme_fixed (u : string) : has_scheme u = true -> ensure_scheme u = u.
Proof. intros H. unfold ensure_scheme. now rewrite H. Qed.

Lemma has_scheme_nonempty (u : string) : has_scheme u = true -> falsy u = false.
Proof. destruct u; [discriminate | reflexivity]. Qed.

Lemma ensure_scheme_nonspace (u : string) :
  all_chars nonspace u = true -> all_chars nonspace (ensure_scheme u) = true.
Proof.
  intros H. unfold ensure_scheme.
  destruct (has_scheme u); simpl negb; cbv iota; [exact H|].
  destruct (startswith "//" u); [| destruct (startswith "/" u)];
    rewrite all_chars_append, ?H, ?(all_chars_lstrip _ _ _ H); reflexivity.
Qed.

(** The string that [sanitize_url] hands to its scheme step. *)
Lemma sanitize_url_unfold (url : string) :
  falsy url = false ->
  sanitize_url url =
    ensure_scheme (if 3 <? count "/" (join_split url)
                   then rstrip "/" (join_split url) else join_split url).
Proof. intros H. unfold sanitize_url. now rewrite H. Qed.

Lemma sanitize_url_has_scheme (url : string) :
  falsy url = false -> has_scheme (sanitize_url url) = true.
Proof. intros H. rewrite (sanitize_url_unfold url H). apply ensure_scheme_has_scheme. Qed.

Lemma sanitize_url_nonspace (url : string) :
  falsy url = false -> all_chars nonspace (sanitize_url url) = true.
Proof.
  intros H. rewrite (sanitize_url_unfold url H). apply ensure_scheme_nonspace.
  destruct (3 <? count "/" (join_split url));
    [apply all_chars_rstrip|]; apply join_split_nonspace.
Qed.

(** Stripping the slashes at the end of a sanitised URL never reaches into
    its scheme. *)
Lemma ensure_scheme_rstrip (u : string) :
  rstrip "/" u = u \/ count "/" u <= 3 ->
  3 < count "/" (ensure_scheme u) ->
  has_scheme (rstrip "/" (ensure_scheme u)) = true.
Proof.
  intros Hu. unfold ensure_scheme.
  destruct (has_scheme u) eqn:Hs; simpl negb; cbv iota.
  - intros Hc. destruct Hu as [Hu | Hu]; [now rewrite Hu | lia].
  - assert (Hpre : forall v, 3 < count "/" ("https://" ++ v) ->
                (rstrip "/" v = "" -> False) ->
                has_scheme (rstrip "/" ("https://" ++ v)) = true).
    { intros v _ Hv. rewrite (rstrip_append "/" "https://" v Hv).
      apply has_scheme_https. }
    destruct (startswith "//" u) eqn:H2.
    + apply startswith_spec in H2. destruct H2 as [v ->].
      intros Hc. apply (Hpre v Hc). intros Hv.
      destruct (rstrip_empty _ _ Hv) as [k ->].
      change ("//" ++ replicate k "/") with (replicate (S (S k)) "/"%char) in Hu.
      rewrite rstrip_replicate, count_replicate in Hu.
      rewrite !count_append, count_replicate in Hc. simpl in Hc.
      destruct Hu as [Hu | Hu]; [discriminate | lia].
    + destruct (startswith "/" u) eqn:H1.
      * intros Hc. apply (Hpre _ Hc). intros Hv.
        destruct (rstrip_empty _ _ Hv) as [k Hk].
        pose proof (lstrip_no_leading "/" u) as Hl. rewrite Hk in Hl, Hc.
        apply replicate_no_leading in Hl. subst k. simpl in Hc. lia.
      * intros Hc. apply (Hpre _ Hc). intros Hv.
        destruct (rstrip_empty _ _ Hv) as [k ->].
        apply replicate_no_leading in H1. subst k. simpl in Hc. lia.
Qed.

(** What a second pass of [sanitize_url] does: nothing but the trailing-slash
    rule, applied to the result of the first. *)
Lemma sanitize_url_twice (url : string) :
  sanitize_url (sanitize_url url) =
    if 3 <? count "/" (sanitize_url url)
    then rstrip "/" (sanitize_url url) else sanitize_url url.
Proof.
  destruct (falsy url) eqn:Hf.
  - destruct url; [reflexivity | discriminate].
  - pose proof (sanitize_url_has_scheme url Hf) as Hs.
    pose proof (sanitize_url_nonspace url Hf) as Hn.
    rewrite (sanitize_url_unfold (sanitize_url url) (has_scheme_nonempty _ Hs)).
    rewrite (join_split_fixed _ Hn).
    destruct (3 <? count "/" (sanitize_url url)) eqn:Hc.
    + apply ensure_scheme_fixed.
      apply Nat.ltb_lt in Hc. revert Hc.
      rewrite (sanitize_url_unfold url Hf). apply ensure_scheme_rstrip.
      destruct (3 <? count "/" (join_split url)) eqn:Hu.
      * left. apply rstrip_idempotent.
      * right. now apply Nat.ltb_ge in Hu.
    + now apply ensure_scheme_fixed.
Qed.

(** The three ways of [ensure_scheme], and white space inside a pasted link. *)
Example sanitize_url_samples :
  sanitize_url "//vm.tiktok.com/ZMabc" = "https://vm.tiktok.com/ZMabc"
  /\ sanitize_url "/youtu.be/dQw4w9WgXcQ" = "https://youtu.be/dQw4w9WgXcQ"
  /\ sanitize_url "youtu.be/dQw4w9WgXcQ" = "https://youtu.be/dQw4w9WgXcQ"
  /\ sanitize_url "http://fb.watch/abc" = "http://fb.watch/abc"
  /\ sanitize_url " https://x.com/u/status/1 " = "https://x.com/u/status/1"
  /\ sanitize_url "https://www.tiktok.com/" = "https://www.tiktok.com/"
  /\ sanitize_url "" = "".
Proof. repeat split; reflexivity. Qed.

(** C7, amended: for every input whose white-space-free form has more than
    three ['/'], [sanitize_url] strips every trailing ['/'] of that form, not
    one: the form is [core] followed by [k] slashes, [core] has no trailing
    ['/'], and the result is [core] with the scheme step applied. *)
Theorem sanitize_url_strips_every_trailing_slash (url : string) :
  3 < count "/" (join_split url) ->
  exists core k,
    join_split url = core ++ replicate k "/"
    /\ endswith "/" core = false
    /\ sanitize_url url = ensure_scheme core.
Proof.
  intros Hc.
  destruct (rstrip_decompose "/" (join_split url)) as [k Hk].
  exists (rstrip "/" (join_split url)), k. split; [exact Hk|]. split.
  - apply rstrip_no_trailing.
  - assert (Hf : falsy url = false).
    { destruct url; [simpl in Hc; lia | reflexivity]. }
    rewrite (sanitize_url_unfold url Hf).
    apply Nat.ltb_lt in Hc. now rewrite Hc.
Qed.

(** A URL with two trailing slashes and five in all loses both. *)
Lemma sanitize_url_strips_every_trailing_slash_witness :
  3 < count "/" (join_split "https://a.com/b//")
  /\ exists core k,
       join_split "https://a.com/b//" = core ++ replicate k "/"
       /\ endswith "/" core = false
       /\ sanitize_url "https://a.com/b//" = ensure_scheme core.
Proof.
  split.
  - vm_compute. lia.
  - apply (sanitize_url_strips_every_trailing_slash "https://a.com/b//").
    vm_compute. lia.
Defined.

(** C7 as worded fails: on ["https://a.com/b//"], whose form has five ['/'],
    stripping exactly one trailing slash would leave ["https://a.com/b/"];
    [sanitize_url] returns ["https://a.com/b"]. *)
Lemma sanitize_url_strips_more_than_one :
  (3 <? count "/" (join_split "https://a.com/b//")) = true
  /\ Spec.normalize "https://a.com/b//" = "https://a.com/b/"
  /\ sanitize_url "https://a.com/b//" = "https://a.com/b"
  /\ sanitize_url "https://a.com/b//" <> Spec.normalize "https://a.com/b//".
Proof. repeat split; try reflexivity. discriminate. Qed.

(** C8, amended: a second pass of [sanitize_url] applies the trailing-slash
    rule to the result of the first and does nothing else; so it returns the
    sanitised URL unchanged when that has at most three ['/'] or no trailing
    ['/'], and from the second pass on the result no longer changes. *)
Theorem sanitize_url_idempotent_after_settling (url : string) :
  (sanitize_url (sanitize_url url) =
     if 3 <? count "/" (sanitize_url url)
     then rstrip "/" (sanitize_url url) else sanitize_url url)
  /\ (count "/" (sanitize_url url) <= 3 \/ endswith "/" (sanitize_url url) = false ->
      sanitize_url (sanitize_url url) = sanitize_url url)
  /\ sanitize_url (sanitize_url (sanitize_url url)) = sanitize_url (sanitize_url url).
Proof.
  split; [apply sanitize_url_twice|]. split.
  - intros H. rewrite sanitize_url_twice.
    destruct (3 <? count "/" (sanitize_url url)) eqn:Hc; [|reflexivity].
    apply Nat.ltb_lt in Hc. destruct H as [H | H]; [lia|].
    now apply rstrip_fixed.
  - rewrite (sanitize_url_twice (sanitize_url url)).
    destruct (3 <? count "/" (sanitize_url (sanitize_url url))) eqn:Hc; [|reflexivity].
    rewrite sanitize_url_twice in Hc |- *.
    destruct (3 <? count "/" (sanitize_url url)) eqn:Hd.
    + apply rstrip_idempotent.
    + congruence.
Qed.

(** An input already in settled form, and one that the second pass changes. *)
Lemma sanitize_url_idempotent_after_settling_witness :
  (count "/" (sanitize_url "youtu.be/abc") <= 3
   \/ endswith "/" (sanitize_url "youtu.be/abc") = false)
  /\ sanitize_url (sanitize_url "youtu.be/abc") = sanitize_url "youtu.be/abc".
Proof.
  assert (H : count "/" (sanitize_url "youtu.be/abc") <= 3
              \/ endswith "/" (sanitize_url "youtu.be/abc") = false).
  { left. vm_compute. lia. }
  split; [exact H|].
  exact (proj1 (proj2 (sanitize_url_idempotent_after_settling "youtu.be/abc")) H).
Defined.

(** C8 as worded fails: ["a.com/b/"] has two ['/'], so the first pass only
    adds the scheme; the result has four, and the second pass strips its
    trailing slash. *)
Lemma sanitize_url_not_idempotent :
  sanitize_url "a.com/b/" = "https://a.com/b/"
  /\ sanitize_url (sanitize_url "a.com/b/") = "https://a.com/b"
  /\ sanitize_url (sanitize_url "a.com/b/") <> sanitize_url "a.com/b/".
Proof. repeat split; try reflexivity. discriminate. Qed.

(* ====================================================================== *)
(** ** The matcher against the meaning of patterns *)
(* ====================================================================== *)

Section MatcherCorrect.

Import Re.

Lemma append_empty_inv (a b : string) : a ++ b = "" -> a = "" /\ b = "".
Proof. destruct a; simpl; [intros ->; now split | discriminate]. Qed.

Lemma matches_Eps_iff (s : string) : matches Eps s <-> s = "".
Proof. split; [intros H; now inversion H | intros ->; constructor]. Qed.

Lemma matches_Class_iff (cl : list item) (s : string) :
  matches (Class cl) s <-> exists c, s = String c "" /\ class_mem cl c = true.
Proof.
  split.
  - intros H. inversion H; subst. now exists c.
  - intros [c [-> H]]. now constructor.
Qed.

Lemma matches_Cat_iff (r1 r2 : regex) (s : string) :
  matches (Cat r1 r2) s <->
  exists s1 s2, s = s1 ++ s2 /\ matches r1 s1 /\ matches r2 s2.
Proof.
  split.
  - intros H. inversion H; subst. now exists s1, s2.
  - intros [s1 [s2 [-> [H1 H2]]]]. now constructor.
Qed.

Lemma matches_Alt_iff (r1 r2 : regex) (s : string) :
  matches (Alt r1 r2) s <-> matches r1 s \/ matches r2 s.
Proof.
  split.
  - intros H. inversion H; subst; [now left | now right].
  - intros [H | H]; [now apply MAltL | now apply MAltR].
Qed.

Lemma nullable_spec (r : regex) : nullable r = true <-> matches r "".
Proof.
  induction r as [| | cl | r1 IH1 r2 IH2 | r1 IH1 r2 IH2 | r IH]; simpl.
  - split; [discriminate | intros H; inversion H].
  - split; [constructor | reflexivity].
  - split; [discriminate | intros H; inversion H].
  - rewrite andb_true_iff, IH1, IH2, matches_Cat_iff. split.
    + intros [H1 H2]. now exists "", "".
    + intros [s1 [s2 [E [H1 H2]]]]. symmetry in E.
      apply append_empty_inv in E. destruct E as [-> ->]. now split.
  - now rewrite orb_true_iff, IH1, IH2, matches_Alt_iff.
  - split; [constructor | reflexivity].
Qed.

Lemma cat_spec (r1 r2 : regex) (s : string) :
  matches (cat r1 r2) s <-> matches (Cat r1 r2) s.
Proof.
  rewrite matches_Cat_iff.
  assert (HV1 : forall r, matches Void s <->
            exists s1 s2, s = s1 ++ s2 /\ matches Void s1 /\ matches r s2).
  { intros r. split; [intros H; inversion H|].
    intros [s1 [s2 [_ [H _]]]]. inversion H. }
  assert (HV2 : forall r, matches Void s <->
            exists s1 s2, s = s1 ++ s2 /\ matches r s1 /\ matches Void s2).
  { intros r. split; [intros H; inversion H|].
    intros [s1 [s2 [_ [_ H]]]]. inversion H. }
  assert (HE : forall r, matches r s <->
            exists s1 s2, s = s1 ++ s2 /\ matches Eps s1 /\ matches r s2).
  { intros r. split.
    - intros H. exists "", s. repeat split; [constructor | exact H].
    - intros [s1 [s2 [-> [H1 H2]]]]. apply matches_Eps_iff in H1. now subst. }
  destruct r1; destruct r2; simpl;
    first [ apply HV1 | apply HV2 | apply HE | apply matches_Cat_iff ].
Qed.

Lemma alt_spec (r1 r2 : regex) (s : string) :
  matches (alt r1 r2) s <-> matches (Alt r1 r2) s.
Proof.
  rewrite matches_Alt_iff.
  assert (HV1 : forall r, matches r s <-> matches Void s \/ matches r s).
  { intros r. split; [now right | intros [H | H]; [inversion H | exact H]]. }
  assert (HV2 : forall r, matches r s <-> matches r s \/ matches Void s).
  { intros r. split; [now left | intros [H | H]; [exact H | inversion H]]. }
  destruct r1; destruct r2; simpl;
    first [ apply HV1 | apply HV2 | apply matches_Alt_iff ].
Qed.

(** A non-empty match of [r*] starts with a non-empty match of [r]. *)
Lemma matches_Star_cons (r : regex) (c : ascii) (s : string) :
  matches (Star r) (String c s) ->
  exists s1 s2, s = s1 ++ s2 /\ matches r (String c s1) /\ matches (Star r) s2.
Proof.
  intros H. remember (Star r) as q eqn:Eq. remember (String c s) as w eqn:Ew.
  revert s Ew.
  induction H as [ | cl' c' Hc' | p1 p2 u1 u2 Hp1 _ Hp2 _ | p1 p2 u Hp _
                 | p1 p2 u Hp _ | r' | r' s1 s2 H1 _ H2 IH2 ];
    intros s Ew; try discriminate.
  injection Eq as ->. destruct s1 as [|a s1]; simpl in Ew.
  - now apply IH2.
  - injection Ew as -> <-. now exists s1, s2.
Qed.

Lemma deriv_spec (r : regex) (c : ascii) (s : string) :
  matches (deriv c r) s <-> matches r (String c s).
Proof.
  revert s.
  induction r as [| | cl | r1 IH1 r2 IH2 | r1 IH1 r2 IH2 | r IH]; intros s; simpl.
  - split; intros H; inversion H.
  - split; intros H; inversion H.
  - rewrite matches_Class_iff. destruct (class_mem cl c) eqn:E.
    + rewrite matches_Eps_iff. split.
      * intros ->. now exists c.
      * intros [c' [H _]]. now injection H.
    + split; [intros H; inversion H|].
      intros [c' [H H']]. injection H as -> _. congruence.
  - rewrite alt_spec, matches_Alt_iff, cat_spec, !matches_Cat_iff. split.
    + intros [[s1 [s2 [-> [H1 H2]]]] | H].
      * exists (String c s1), s2. repeat split; [now apply IH1 | exact H2].
      * destruct (nullable r1) eqn:N; [|inversion H].
        exists "", (String c s). repeat split; [now apply nullable_spec | now apply IH2].
    + intros [s1 [s2 [E [H1 H2]]]]. destruct s1 as [|a s1]; simpl in E.
      * right. subst s2. apply nullable_spec in H1. rewrite H1. now apply IH2.
      * injection E as <- ->. left. exists s1, s2. repeat split; [now apply IH1 | exact H2].
  - now rewrite alt_spec, !matches_Alt_iff, IH1, IH2.
  - rewrite cat_spec, matches_Cat_iff. split.
    + intros [s1 [s2 [-> [H1 H2]]]]. apply IH in H1.
      change (String c (s1 ++ s2)) with (String c s1 ++ s2). now apply MStarS.
    + intros H. apply matches_Star_cons in H.
      destruct H as [s1 [s2 [-> [H1 H2]]]]. exists s1, s2.
      repeat split; [now apply IH | exact H2].
Qed.

Lemma match_prefix_spec (r : regex) (s : string) :
  match_prefix r s = true <-> exists p q, s = p ++ q /\ matches r p.
Proof.
  revert r. induction s as [|c t IH]; intros r; simpl.
  - rewrite orb_false_r, nullable_spec. split.
    + intros H. now exists "", "".
    + intros [p [q [E H]]]. symmetry in E. apply append_empty_inv in E.
      destruct E as [-> _]. exact H.
  - rewrite orb_true_iff, nullable_spec, IH. split.
    + intros [H | [p [q [-> H]]]].
      * now exists "", (String c t).
      * exists (String c p), q. split; [reflexivity | now apply deriv_spec].
    + intros [p [q [E H]]]. destruct p as [|a p]; simpl in E.
      * now left.
      * injection E as <- ->. right. exists p, q. split; [reflexivity | now apply deriv_spec].
Qed.

(** [search] is unanchored matching: it succeeds exactly when the pattern
    matches some substring. *)
Lemma search_spec (r : regex) (s : string) :
  search r s = true <-> matches_anywhere r s.
Proof.
  unfold matches_anywhere. induction s as [|c t IH]; cbn [search].
  - rewrite orb_false_r, match_prefix_spec. split.
    + intros [p [q [E H]]]. now exists "", p, q.
    + intros [pre [mid [post [E H]]]]. destruct pre; simpl in E; [|discriminate].
      now exists mid, post.
  - rewrite orb_true_iff, match_prefix_spec, IH. split.
    + intros [[p [q [E H]]] | [pre [mid [post [-> H]]]]].
      * now exists "", p, q.
      * now exists (String c pre), mid, post.
    + intros [pre [mid [post [E H]]]]. destruct pre as [|a pre]; simpl in E.
      * left. now exists mid, post.
      * injection E as _ ->. right. now exists pre, mid, post.
Qed.

End MatcherCorrect.

(* ====================================================================== *)
(** ** [URLProcessor.detect_platform] *)
(* ====================================================================== *)

Lemma any_pattern_spec (patterns : list Re.regex) (s : string) :
  any_pattern patterns s = true <->
  exists rule, In rule patterns /\ Re.matches_anywhere rule s.
Proof.
  induction patterns as [|r rest IH]; simpl.
  - split; [discriminate | intros [rule [[] _]]].
  - destruct (Re.search r s) eqn:E.
    + split; [|reflexivity]. intros _. exists r. split; [now left | now apply search_spec].
    + rewrite IH. split.
      * intros [rule [Hin H]]. exists rule. split; [now right | exact H].
      * intros [rule [[-> | Hin] H]].
        -- apply search_spec in H. congruence.
        -- now exists rule.
Qed.

Lemma any_pattern_none (patterns : list Re.regex) (s : string) :
  any_pattern patterns s = false <->
  forall rule, In rule patterns -> ~ Re.matches_anywhere rule s.
Proof.
  split.
  - intros H rule Hin Hm.
    assert (any_pattern patterns s = true) by (apply any_pattern_spec; now exists rule).
    congruence.
  - intros H. destruct (any_pattern patterns s) eqn:E; [|reflexivity].
    apply any_pattern_spec in E. destruct E as [rule [Hin Hm]]. now destruct (H rule Hin).
Qed.

Lemma detect_in_some (items : list (string * list Re.regex)) (s platform : string) :
  detect_in items s = Some platform <->
  exists earlier rules later,
    items = (earlier ++ (platform, rules) :: later)%list
    /\ any_pattern rules s = true
    /\ forall p rs, In (p, rs) earlier -> any_pattern rs s = false.
Proof.
  induction items as [|[p0 rs0] rest IH]; simpl.
  - split; [discriminate|]. intros [earlier [rules [later [E _]]]].
    now destruct earlier.
  - destruct (any_pattern rs0 s) eqn:E0.
    + split.
      * intros H. injection H as <-. exists [], rs0, rest.
        repeat split; [exact E0 | intros p rs []].
      * intros [earlier [rules [later [E [Hm Hn]]]]].
        destruct earlier as [|[p1 rs1] earlier]; simpl in E.
        -- now injection E as -> _ _.
        -- injection E as -> -> _. rewrite (Hn p1 rs1) in E0; [discriminate | now left].
    + rewrite IH. split.
      * intros [earlier [rules [later [-> [Hm Hn]]]]].
        exists ((p0, rs0) :: earlier), rules, later. repeat split; [exact Hm|].
        intros p rs [H | H]; [now injection H as <- <- | now apply (Hn p)].
      * intros [earlier [rules [later [E [Hm Hn]]]]].
        destruct earlier as [|[p1 rs1] earlier]; simpl in E.
        -- injection E as _ -> _. congruence.
        -- injection E as _ _ ->. exists earlier, rules, later.
           repeat split; [exact Hm|]. intros p rs H. apply (Hn p). now right.
Qed.

Lemma detect_in_none (items : list (string * list Re.regex)) (s : string) :
  detect_in items s = None <->
  forall p rs, In (p, rs) items -> any_pattern rs s = false.
Proof.
  induction items as [|[p0 rs0] rest IH]; simpl.
  - split; [intros _ p rs [] | reflexivity].
  - destruct (any_pattern rs0 s) eqn:E0.
    + split; [discriminate|]. intros H. rewrite (H p0 rs0) in E0; [discriminate | now left].
    + rewrite IH. split.
      * intros H p rs [E | Hin]; [now injection E as <- <- | now apply (H p)].
      * intros H p rs Hin. apply (H p). now right.
Qed.

(** One content URL per platform; the TikTok home and explore pages match no
    rule, and a rule matches wherever it occurs in the URL. *)
Example detect_platform_samples :
  detect_platform "https://www.youtube.com/watch?v=dQw4w9WgXcQ" = Some "youtube"
  /\ detect_platform "https://www.tiktok.com/@user.name/video/7234567890" = Some "tiktok"
  /\ detect_platform "https://www.instagram.com/reel/Cabc_-1/" = Some "instagram"
  /\ detect_platform "https://fb.watch/abc" = Some "facebook"
  /\ detect_platform "https://X.com/User/status/1" = Some "twitter"
  /\ detect_platform "https://www.snapchat.com/add/some.user" = Some "snapchat"
  /\ detect_platform "https://www.tiktok.com/" = None
  /\ detect_platform "https://www.tiktok.com/explore" = None
  /\ detect_platform "https://example.org/?next=youtu.be/dQw4w9WgXcQ&from=fb.watch/abc"
     = Some "youtube".
Proof. repeat split; vm_compute; reflexivity. Qed.

(** C6: [detect_platform] lower-cases the URL and returns the first platform,
    in the declared order youtube, tiktok, instagram, facebook, twitter,
    snapchat, one of whose rules matches somewhere in the lower-cased URL;
    it returns [None] exactly when no rule of any platform does.  The result
    depends on the URL alone. *)
Theorem detect_platform_first_matching_platform (url : string) :
  map fst PLATFORM_PATTERNS
    = ["youtube"; "tiktok"; "instagram"; "facebook"; "twitter"; "snapchat"]
  /\ (forall platform,
        detect_platform url = Some platform <->
        exists earlier rules later,
          PLATFORM_PATTERNS = (earlier ++ (platform, rules) :: later)%list
          /\ (exists rule, In rule rules /\ Re.matches_anywhere rule (lower url))
          /\ (forall p rs rule, In (p, rs) earlier -> In rule rs ->
                ~ Re.matches_anywhere rule (lower url)))
  /\ (detect_platform url = None <->
        forall p rs rule, In (p, rs) PLATFORM_PATTERNS -> In rule rs ->
          ~ Re.matches_anywhere rule (lower url)).
Proof.
  split; [reflexivity|]. unfold detect_platform. split.
  - intros platform. rewrite detect_in_some. split.
    + intros [earlier [rules [later [E [Hm Hn]]]]].
      exists earlier, rules, later. repeat split; [exact E | now apply any_pattern_spec|].
      intros p rs rule Hin. apply any_pattern_none. now apply (Hn p).
    + intros [earlier [rules [later [E [Hm Hn]]]]].
      exists earlier, rules, later. repeat split; [exact E | now apply any_pattern_spec|].
      intros p rs Hin. apply any_pattern_none. intros rule. now apply (Hn p).
  - rewrite detect_in_none. split.
    + intros H p rs rule Hin. apply any_pattern_none. now apply (H p).
    + intros H p rs Hin. apply any_pattern_none. intros rule. now apply (H p).
Qed.

(* ====================================================================== *)
(** ** [URLProcessor.is_valid_content_url] *)
(* ====================================================================== *)

Lemma is_valid_content_url_tiktok (url : string) :
  tiktok_rejects (lower url) = true ->
  is_valid_content_url url (Some "tiktok") = false.
Proof.
  intros H. unfold is_valid_content_url.
  destruct (falsy url || falsy "tiktok"); [reflexivity|].
  cbv zeta. rewrite H. reflexivity.
Qed.

(** Without a platform the validator answers [False], whatever the URL. *)
Lemma is_valid_content_url_no_platform (url : string) (platform : option string) :
  platform = None \/ platform = Some "" ->
  is_valid_content_url url platform = false.
Proof.
  intros [-> | ->]; [reflexivity|].
  unfold is_valid_content_url. simpl falsy. now rewrite orb_true_r.
Qed.

(** The bare-domain gate is a test on the end of the lower-cased URL. *)
Lemma is_valid_content_url_tiktok_domain_suffix (url : string) :
  endswith "tiktok.com/" (lower url) = true \/ endswith "tiktok.com" (lower url) = true ->
  is_valid_content_url url (Some "tiktok") = false.
Proof.
  intros H. apply is_valid_content_url_tiktok. unfold tiktok_rejects.
  destruct (contains "/explore" (lower url)); [reflexivity|].
  destruct H as [H | H]; rewrite H; [reflexivity | now rewrite orb_true_r].
Qed.

(** Whatever precedes the bare domain, a URL that ends with it is rejected. *)
Lemma is_valid_content_url_tiktok_bare_domain (before : string) :
  is_valid_content_url (before ++ "tiktok.com/") (Some "tiktok") = false
  /\ is_valid_content_url (before ++ "tiktok.com") (Some "tiktok") = false.
Proof.
  split; apply is_valid_content_url_tiktok_domain_suffix; [left | right];
    rewrite lower_append; apply endswith_spec; now exists (lower before).
Qed.

(** C3, amended: for platform tiktok the validator returns [False] for every
    URL that contains ["/explore"], for the bare domain, and for every URL
    whose lower-cased form lacks all of ["/video/"], ["vm.tiktok"] and
    ["vt.tiktok"]; in particular for the TikTok homepage and its explore
    page. *)
Theorem is_valid_content_url_tiktok_gates :
  (forall url,
     contains "/explore" url = true
     \/ (url = "tiktok.com/" \/ url = "tiktok.com")
     \/ (contains "/video/" (lower url) = false
         /\ contains "vm.tiktok" (lower url) = false
         /\ contains "vt.tiktok" (lower url) = false) ->
     is_valid_content_url url (Some "tiktok") = false)
  /\ is_valid_content_url "https://www.tiktok.com/" (Some "tiktok") = false
  /\ is_valid_content_url "https://www.tiktok.com/explore" (Some "tiktok") = false.
Proof.
  split; [|split; reflexivity].
  intros url [H | [[-> | ->] | [H1 [H2 H3]]]]; try reflexivity.
  - apply is_valid_content_url_tiktok. unfold tiktok_rejects.
    apply contains_lower in H. change (lower "/explore") with "/explore" in H.
    now rewrite H.
  - apply is_valid_content_url_tiktok. unfold tiktok_rejects.
    rewrite H1, H2, H3. simpl.
    destruct (contains "/explore" (lower url)); [reflexivity|].
    now destruct (endswith "tiktok.com/" (lower url) || endswith "tiktok.com" (lower url)).
Qed.

(** A profile page: it has none of the three keywords. *)
Lemma is_valid_content_url_tiktok_gates_witness :
  (contains "/video/" (lower "https://www.tiktok.com/@user") = false
   /\ contains "vm.tiktok" (lower "https://www.tiktok.com/@user") = false
   /\ contains "vt.tiktok" (lower "https://www.tiktok.com/@user") = false)
  /\ is_valid_content_url "https://www.tiktok.com/@user" (Some "tiktok") = false.
Proof.
  assert (H : contains "/video/" (lower "https://www.tiktok.com/@user") = false
              /\ contains "vm.tiktok" (lower "https://www.tiktok.com/@user") = false
              /\ contains "vt.tiktok" (lower "https://www.tiktok.com/@user") = false).
  { repeat split; reflexivity. }
  split; [exact H|].
  apply (proj1 is_valid_content_url_tiktok_gates "https://www.tiktok.com/@user").
  right; right. exact H.
Defined.

(** C3 as worded fails: the keywords are looked for in the lower-cased URL.
    An upper-case share link has none of them as written and is accepted. *)
Lemma is_valid_content_url_tiktok_upper_case :
  contains "/video/" "HTTPS://VM.TIKTOK.COM/ZMABC123" = false
  /\ contains "vm.tiktok" "HTTPS://VM.TIKTOK.COM/ZMABC123" = false
  /\ contains "vt.tiktok" "HTTPS://VM.TIKTOK.COM/ZMABC123" = false
  /\ is_valid_content_url "HTTPS://VM.TIKTOK.COM/ZMABC123" (Some "tiktok") = true.
Proof. repeat split; reflexivity. Qed.

(* ====================================================================== *)
(** ** [DownloadManager._get_format_selector] *)
(* ====================================================================== *)

Import DownloadManager.

Lemma map_get_or_best_default (quality : string) :
  In (map_get_or_best DEFAULT_QUALITY_MAP quality) (map snd DEFAULT_QUALITY_MAP).
Proof.
  unfold map_get_or_best, DEFAULT_QUALITY_MAP. cbn [dict_get].
  repeat match goal with
         | |- context [String.eqb ?a quality] =>
             destruct (String.eqb a quality); [simpl; tauto|]
         end.
  simpl. tauto.
Qed.

(** C1, amended: with [audio_only] off and platform tiktok, every tier puts a
    combined video-and-audio stream first, under the tier's height cap and
    without one for "best".  Tier "best" continues with the pair of matching
    container, the pair of any container and the generic "best"; each capped
    tier continues with its capped best-video plus best-audio of any container
    and ends with its capped "best".  For any other platform the first
    alternative is never a combined-codec term. *)
Theorem format_selector_tiers :
  alternatives (_get_format_selector "best" false (Some "tiktok"))
    = [ "best[vcodec!=none][acodec!=none]";
        "bestvideo[ext=mp4]+bestaudio[ext=m4a]";
        "bestvideo+bestaudio";
        "best" ]
  /\ Spec.tiered "best" (alternatives (_get_format_selector "best" false (Some "tiktok"))) = true
  /\ (forall h, In h ["1080"; "720"; "480"; "360"] ->
        alternatives (_get_format_selector (h ++ "p") false (Some "tiktok"))
          = [ "best[height<=" ++ h ++ "][vcodec!=none][acodec!=none]";
              "bestvideo[height<=" ++ h ++ "]+bestaudio";
              "best[height<=" ++ h ++ "]" ])
  /\ (forall quality, In quality ["best"; "1080p"; "720p"; "480p"; "360p"] ->
        exists first rest,
          alternatives (_get_format_selector quality false (Some "tiktok")) = first :: rest
          /\ combined_codec first = true
          /\ Spec.capped_for quality first = true)
  /\ (forall quality extract_audio platform,
        platform <> Some "tiktok" ->
        exists first rest,
          alternatives (_get_format_selector quality extract_audio platform) = first :: rest
          /\ combined_codec first = false).
Proof.
  split; [reflexivity|]. split; [reflexivity|]. split; [|split].
  - intros h [<- | [<- | [<- | [<- | []]]]]; reflexivity.
  - intros quality [<- | [<- | [<- | [<- | [<- | []]]]]];
      eexists; eexists; (split; [cbv; reflexivity | split; reflexivity]).
  - intros quality extract_audio platform Hp.
    unfold _get_format_selector. destruct extract_audio.
    + eexists; eexists; split; [cbv; reflexivity | reflexivity].
    + assert (Ht : is_tiktok platform = false).
      { destruct platform as [p|]; [|reflexivity]. simpl.
        destruct (String.eqb p "tiktok") eqn:E; [|reflexivity].
        apply String.eqb_eq in E. now subst. }
      rewrite Ht.
      pose proof (map_get_or_best_default quality) as H. simpl in H.
      destruct H as [<- | [<- | [<- | [<- | [<- | []]]]]];
        eexists; eexists; (split; [cbv; reflexivity | reflexivity]).
Qed.

(** The 720p tier on tiktok, and an instagram request. *)
Lemma format_selector_tiers_witness :
  In "720" ["1080"; "720"; "480"; "360"]
  /\ alternatives (_get_format_selector "720p" false (Some "tiktok"))
       = [ "best[height<=720][vcodec!=none][acodec!=none]";
           "bestvideo[height<=720]+bestaudio";
           "best[height<=720]" ].
Proof.
  assert (H : In "720" ["1080"; "720"; "480"; "360"]) by (simpl; tauto).
  split; [exact H|].
  exact (proj1 (proj2 (proj2 format_selector_tiers)) "720" H).
Defined.

(** C1 as worded fails: a capped tier has three alternatives, none of them a
    pair with matching container, and its last is the capped "best", not the
    generic one. *)
Lemma format_selector_capped_tier_not_four :
  Spec.tiered "1080p" (alternatives (_get_format_selector "1080p" false (Some "tiktok")))
    = false
  /\ List.length (alternatives (_get_format_selector "1080p" false (Some "tiktok"))) = 3
  /\ existsb Spec.pair_matching_container
       (alternatives (_get_format_selector "1080p" false (Some "tiktok"))) = false
  /\ existsb (String.eqb "best")
       (alternatives (_get_format_selector "1080p" false (Some "tiktok"))) = false.
Proof. repeat split; reflexivity. Qed.

(* ====================================================================== *)
(** ** [DownloadManager.download_video] and [get_video_info] *)
(* ====================================================================== *)

(** An engine message with the text of a format error has ["format"] in its
    lower-cased form. *)
Lemma format_error_text (error_msg : string) :
  contains "format" error_msg = true
  \/ contains "Requested format is not available" error_msg = true ->
  contains "Requested format is not available" error_msg
  || contains "format" (lower error_msg) = true.
Proof.
  intros [H | H].
  - apply contains_lower in H. change (lower "format") with "format" in H.
    rewrite H. apply orb_true_r.
  - now rewrite H.
Qed.

Lemma requested_format_has_format (error_msg : string) :
  contains "format" (lower error_msg) = false ->
  contains "Requested format is not available" error_msg = false.
Proof.
  intros H. destruct (contains "Requested format is not available" error_msg) eqn:E;
    [|reflexivity].
  apply contains_spec in E. destruct E as [a [b ->]].
  assert (contains "format" (lower (a ++ "Requested format is not available" ++ b)) = true);
    [|congruence].
  apply contains_spec.
  exists (lower a ++ "requested "), (" is not available" ++ lower b).
  rewrite !lower_append, !append_assoc. reflexivity.
Qed.

Section DownloadVideo.

Context {Hook World : Type}.
Variable engine_download :
  ydl_opts Hook -> string -> World -> (exn + download_info) * World.
Variable engine_probe :
  probe_opts -> string -> World -> (exn + option info_dict) * World.
Variable path_exists : string -> World -> bool.

Local Abbreviation download_video :=
  (DownloadManager.download_video Hook World engine_download path_exists).
Local Abbreviation attempt :=
  (DownloadManager.attempt Hook World engine_download path_exists).
Local Abbreviation get_video_info :=
  (DownloadManager.get_video_info Hook World engine_probe).

(** What an attempt's answer becomes once the handlers of [download_video]
    have seen it, when no fallback follows. *)
Lemma attempt_run (opts : ydl_opts Hook) (resolved_url : string)
    (extract_audio : bool) (s : state Hook World) :
  attempt opts resolved_url extract_audio s =
    let '(r, w) := engine_download opts resolved_url (world s) in
    let s' := {| world := w;
                 trace := (trace s ++ [EngineDownload opts resolved_url])%list |} in
    match r with
    | inl e => (inl e, s')
    | inr info =>
        if path_exists (final_filename extract_audio info) w
        then (inr (true, Some (final_filename extract_audio info),
                   Some (get_or (info_title info) "Downloaded Video")), s')
        else (inr (failure MSG_ARTIFACT_MISSING), s')
    end.
Proof.
  unfold DownloadManager.attempt, bind, run_download, os_path_exists, ret.
  destruct (engine_download opts resolved_url (world s)) as [[e | info] w];
    [reflexivity|].
  cbn [world]. now destruct (path_exists (final_filename extract_audio info) w).
Qed.

(** C4: [download_video] sanitises the URL and checks it with
    [is_valid_content_url]; when the check fails it returns the
    invalid-content-URL failure at once: the state is the one it started in,
    so the engine was not invoked. *)
Theorem download_video_rejects_invalid_content_url
    (url quality : string) (extract_audio : bool) (progress_hook : option Hook)
    (platform : option string) (s : state Hook World) :
  is_valid_content_url (sanitize_url url) platform = false ->
  download_video url quality extract_audio progress_hook platform s
    = (inr (failure MSG_INVALID_CONTENT_URL), s).
Proof.
  intros H. unfold DownloadManager.download_video, try_except.
  cbv zeta. rewrite H. reflexivity.
Qed.

(** C10: with no platform ([None] or the empty string) [download_video]
    returns a failure and leaves the state as it was: the validator answers
    [False] for an empty platform, and the engine is never invoked. *)
Theorem download_video_without_platform
    (url quality : string) (extract_audio : bool) (progress_hook : option Hook)
    (platform : option string) (s : state Hook World) :
  platform = None \/ platform = Some "" ->
  is_valid_content_url (sanitize_url url) platform = false
  /\ exists msg,
       download_video url quality extract_audio progress_hook platform s
         = (inr (false, None, Some msg), s).
Proof.
  intros H.
  pose proof (is_valid_content_url_no_platform (sanitize_url url) platform H) as Hv.
  split; [exact Hv|]. exists MSG_INVALID_CONTENT_URL.
  unfold DownloadManager.download_video, try_except.
  cbv zeta. rewrite Hv. reflexivity.
Qed.

(** C2: when the first engine run raises a download error whose message has
    the text of a format error and not the extractor-outdated marker,
    [download_video] runs the engine once more, with the format ["best/best"],
    no merge directive and every other option as before, on the same URL; the
    answer of that second run, with the check that the file exists, is the
    outcome.  So when the second run succeeds and its file is there, the
    outcome is a success, after exactly two engine runs. *)
Theorem download_video_format_fallback
    (url quality : string) (extract_audio : bool) (progress_hook : option Hook)
    (platform : option string) (w w1 w2 : World) (error_msg : string)
    (answer : exn + download_info) :
  let resolved_url := sanitize_url url in
  let opts := with_progress_hook progress_hook
                (get_base_opts quality extract_audio platform) in
  let final :=
    {| world := w2;
       trace := [ EngineDownload opts resolved_url;
                  StInfo MSG_FORMAT_FALLBACK;
                  EngineDownload (fallback_opts opts) resolved_url ] |} in
  is_valid_content_url resolved_url platform = true ->
  engine_download opts resolved_url w = (inl (DownloadError error_msg), w1) ->
  contains "format" error_msg = true
  \/ contains "Requested format is not available" error_msg = true ->
  contains "Unable to extract sigi state" error_msg = false ->
  engine_download (fallback_opts opts) resolved_url w1 = (answer, w2) ->
  (* the options of the second run *)
  (format (fallback_opts opts) = "best/best"
   /\ merge_output_format (fallback_opts opts) = None
   /\ outtmpl (fallback_opts opts) = outtmpl opts
   /\ quiet (fallback_opts opts) = quiet opts
   /\ no_warnings (fallback_opts opts) = no_warnings opts
   /\ noplaylist (fallback_opts opts) = noplaylist opts
   /\ http_headers (fallback_opts opts) = http_headers opts
   /\ extractor_args (fallback_opts opts) = extractor_args opts
   /\ postprocessors (fallback_opts opts) = postprocessors opts
   /\ progress_hooks (fallback_opts opts) = progress_hooks opts)
  (* the second run decides *)
  /\ download_video url quality extract_audio progress_hook platform (initial w)
     = (inr match answer with
            | inr info =>
                if path_exists (final_filename extract_audio info) w2
                then (true, Some (final_filename extract_audio info),
                      Some (get_or (info_title info) "Downloaded Video"))
                else failure MSG_ARTIFACT_MISSING
            | inl (DownloadError msg) => classify_download_error msg
            | inl (OtherException msg) => failure ("Unexpected error: " ++ msg)
            end,
        final)
  /\ engine_calls final = 2
  (* an engine that succeeds the second time *)
  /\ (forall info,
        answer = inr info ->
        path_exists (final_filename extract_audio info) w2 = true ->
        download_video url quality extract_audio progress_hook platform (initial w)
        = (inr (true, Some (final_filename extract_audio info),
                Some (get_or (info_title info) "Downloaded Video")),
           final)).
Proof.
  intros resolved_url opts final Hvalid Hfirst Hfmt Hsigi Hsecond.
  assert (Hrun :
    download_video url quality extract_audio progress_hook platform (initial w)
    = (inr match answer with
           | inr info =>
               if path_exists (final_filename extract_audio info) w2
               then (true, Some (final_filename extract_audio info),
                     Some (get_or (info_title info) "Downloaded Video"))
               else failure MSG_ARTIFACT_MISSING
           | inl (DownloadError msg) => classify_download_error msg
           | inl (OtherException msg) => failure ("Unexpected error: " ++ msg)
           end,
       final)).
  { unfold DownloadManager.download_video.
    unfold try_except at 1. cbv zeta.
    fold resolved_url. rewrite Hvalid. cbn [negb]. fold opts.
    unfold try_except. rewrite attempt_run.
    cbn [world trace initial]. rewrite Hfirst.
    unfold format_error_handler. rewrite Hsigi, (format_error_text _ Hfmt).
    unfold bind, log. cbv zeta. rewrite attempt_run.
    cbn [world trace app]. rewrite Hsecond.
    destruct answer as [[msg | msg] | info]; try reflexivity.
    now destruct (path_exists (final_filename extract_audio info) w2). }
  split; [repeat split|]. split; [exact Hrun|]. split; [reflexivity|].
  intros info -> Hfile. rewrite Hrun, Hfile. reflexivity.
Qed.

(** C5, amended: when the first engine run raises a download error whose
    message contains ["Private video"], does not contain the
    extractor-outdated marker and has no ["format"] in its lower-cased form,
    [download_video] returns the private-video failure after that single
    engine run. *)
Theorem download_video_private_video
    (url quality : string) (extract_audio : bool) (progress_hook : option Hook)
    (platform : option string) (w w1 : World) (error_msg : string) :
  let resolved_url := sanitize_url url in
  let opts := with_progress_hook progress_hook
                (get_base_opts quality extract_audio platform) in
  let final := {| world := w1; trace := [EngineDownload opts resolved_url] |} in
  is_valid_content_url resolved_url platform = true ->
  engine_download opts resolved_url w = (inl (DownloadError error_msg), w1) ->
  contains "Private video" error_msg = true ->
  contains "Unable to extract sigi state" error_msg = false ->
  contains "format" (lower error_msg) = false ->
  download_video url quality extract_audio progress_hook platform (initial w)
    = (inr (failure MSG_PRIVATE_VIDEO), final)
  /\ engine_calls final = 1.
Proof.
  intros resolved_url opts final Hvalid Hfirst Hpriv Hsigi Hfmt.
  split; [|reflexivity].
  unfold DownloadManager.download_video.
  unfold try_except at 1. cbv zeta.
  fold resolved_url. rewrite Hvalid. cbn [negb]. fold opts.
  unfold try_except. rewrite attempt_run.
  cbn [world trace initial]. rewrite Hfirst.
  unfold format_error_handler.
  rewrite Hsigi, Hfmt, (requested_format_has_format _ Hfmt).
  cbn [orb]. unfold raise, ret, classify_download_error.
  rewrite Hsigi, Hpriv. reflexivity.
Qed.

(** C9: [get_video_info] never raises, and whenever the probe raises, with
    whatever exception, or returns no [info], it returns [None]. *)
Theorem get_video_info_swallows_failures
    (url : string) (platform : option string) (s : state Hook World) :
  (exists result s', get_video_info url platform s = (inr result, s'))
  /\ (forall e w',
        engine_probe (probe_options platform) (sanitize_url url) (world s) = (inl e, w') ->
        fst (get_video_info url platform s) = inr None)
  /\ (forall w',
        engine_probe (probe_options platform) (sanitize_url url) (world s) = (inr None, w') ->
        fst (get_video_info url platform s) = inr None).
Proof.
  unfold DownloadManager.get_video_info, try_except, bind, run_probe, ret, raise.
  cbv zeta.
  destruct (engine_probe (probe_options platform) (sanitize_url url) (world s))
    as [[e | [info |]] w]; repeat split;
    try (eexists; eexists; reflexivity); intros; try reflexivity; discriminate.
Qed.

End DownloadVideo.

(* ====================================================================== *)
(** ** The properties on the scripted engine *)
(* ====================================================================== *)

(** The explore page is turned away before the engine is touched. *)
Lemma download_video_rejects_invalid_content_url_witness :
  is_valid_content_url (sanitize_url "https://www.tiktok.com/explore") (Some "tiktok") = false
  /\ Scripted.download_video "https://www.tiktok.com/explore" "best" false None
       (Some "tiktok") (Scripted.start Scripted.format_error_then_success)
     = (inr (failure MSG_INVALID_CONTENT_URL),
        Scripted.start Scripted.format_error_then_success).
Proof.
  assert (H : is_valid_content_url (sanitize_url "https://www.tiktok.com/explore")
                (Some "tiktok") = false) by (vm_compute; reflexivity).
  split; [exact H|].
  exact (download_video_rejects_invalid_content_url
           Scripted.engine_download Scripted.path_exists
           "https://www.tiktok.com/explore" "best" false None (Some "tiktok")
           (Scripted.start Scripted.format_error_then_success) H).
Defined.

(** A valid YouTube link submitted without a platform. *)
Lemma download_video_without_platform_witness :
  (@None string = None \/ @None string = Some "")
  /\ exists msg,
       Scripted.download_video "https://youtu.be/dQw4w9WgXcQ" "best" false None None
         (Scripted.start Scripted.format_error_then_success)
       = (inr (false, None, Some msg), Scripted.start Scripted.format_error_then_success).
Proof.
  assert (H : @None string = None \/ @None string = Some "") by (left; reflexivity).
  split; [exact H|].
  exact (proj2 (download_video_without_platform
                  Scripted.engine_download Scripted.path_exists
                  "https://youtu.be/dQw4w9WgXcQ" "best" false None None
                  (Scripted.start Scripted.format_error_then_success) H)).
Defined.

(** A tiktok download whose first run lacks the format: two runs, success. *)
Lemma download_video_format_fallback_witness :
  let url := "https://www.tiktok.com/@user/video/7234567890" in
  let opts : ydl_opts unit := get_base_opts "best" false (Some "tiktok") in
  let w1 := {| Scripted.downloads := [inr Scripted.clip]; Scripted.probes := [];
               Scripted.files := ["downloads/clip.mp4"] |} in
  let w2 := {| Scripted.downloads := []; Scripted.probes := [];
               Scripted.files := ["downloads/clip.mp4"] |} in
  (is_valid_content_url (sanitize_url url) (Some "tiktok") = true
   /\ Scripted.engine_download opts (sanitize_url url) Scripted.format_error_then_success
      = (inl (DownloadError "ERROR: Requested format is not available"), w1)
   /\ contains "Unable to extract sigi state" "ERROR: Requested format is not available"
      = false
   /\ Scripted.engine_download (fallback_opts opts) (sanitize_url url) w1
      = (inr Scripted.clip, w2))
  /\ Scripted.download_video url "best" false None (Some "tiktok")
       (Scripted.start Scripted.format_error_then_success)
     = (inr (true, Some "downloads/clip.mp4", Some "clip"),
        {| world := w2;
           trace := [ EngineDownload opts (sanitize_url url);
                      StInfo MSG_FORMAT_FALLBACK;
                      EngineDownload (fallback_opts opts) (sanitize_url url) ] |})
  /\ engine_calls
       (snd (Scripted.download_video url "best" false None (Some "tiktok")
               (Scripted.start Scripted.format_error_then_success))) = 2.
Proof.
  intros url opts w1 w2.
  assert (Hvalid : is_valid_content_url (sanitize_url url) (Some "tiktok") = true)
    by (vm_compute; reflexivity).
  assert (Hfirst :
    Scripted.engine_download opts (sanitize_url url) Scripted.format_error_then_success
    = (inl (DownloadError "ERROR: Requested format is not available"), w1))
    by reflexivity.
  assert (Hfmt :
    contains "format" "ERROR: Requested format is not available" = true
    \/ contains "Requested format is not available"
         "ERROR: Requested format is not available" = true)
    by (left; vm_compute; reflexivity).
  assert (Hsigi :
    contains "Unable to extract sigi state" "ERROR: Requested format is not available"
    = false) by (vm_compute; reflexivity).
  assert (Hsecond :
    Scripted.engine_download (fallback_opts opts) (sanitize_url url) w1
    = (inr Scripted.clip, w2)) by reflexivity.
  pose proof (download_video_format_fallback
                Scripted.engine_download Scripted.path_exists
                url "best" false None (Some "tiktok")
                Scripted.format_error_then_success w1 w2
                "ERROR: Requested format is not available" (inr Scripted.clip)
                Hvalid Hfirst Hfmt Hsigi Hsecond) as Hthm.
  destruct Hthm as [_ [_ [_ Hsuccess]]].
  pose proof (Hsuccess Scripted.clip eq_refl eq_refl) as Hrun.
  split; [repeat split; assumption|].
  split; [exact Hrun|].
  exact (f_equal (fun run => engine_calls (snd run)) Hrun).
Defined.

(** A private YouTube video: one run, the private-video failure. *)
Lemma download_video_private_video_witness :
  let url := "https://youtu.be/dQw4w9WgXcQ" in
  let opts : ydl_opts unit := get_base_opts "720p" false (Some "youtube") in
  (is_valid_content_url (sanitize_url url) (Some "youtube") = true
   /\ Scripted.engine_download opts (sanitize_url url) Scripted.private_video
      = (inl (DownloadError Scripted.PRIVATE_VIDEO_ERROR), Scripted.idle)
   /\ contains "Private video" Scripted.PRIVATE_VIDEO_ERROR = true
   /\ contains "Unable to extract sigi state" Scripted.PRIVATE_VIDEO_ERROR = false
   /\ contains "format" (lower Scripted.PRIVATE_VIDEO_ERROR) = false)
  /\ Scripted.download_video url "720p" false None (Some "youtube")
       (Scripted.start Scripted.private_video)
     = (inr (failure MSG_PRIVATE_VIDEO),
        {| world := Scripted.idle;
           trace := [EngineDownload opts (sanitize_url url)] |}).
Proof.
  intros url opts.
  assert (Hvalid : is_valid_content_url (sanitize_url url) (Some "youtube") = true)
    by (vm_compute; reflexivity).
  assert (Hfirst :
    Scripted.engine_download opts (sanitize_url url) Scripted.private_video
    = (inl (DownloadError Scripted.PRIVATE_VIDEO_ERROR), Scripted.idle)) by reflexivity.
  assert (Hpriv : contains "Private video" Scripted.PRIVATE_VIDEO_ERROR = true)
    by (vm_compute; reflexivity).
  assert (Hsigi : contains "Unable to extract sigi state" Scripted.PRIVATE_VIDEO_ERROR
                  = false) by (vm_compute; reflexivity).
  assert (Hfmt : contains "format" (lower Scripted.PRIVATE_VIDEO_ERROR) = false)
    by (vm_compute; reflexivity).
  split; [repeat split; assumption|].
  exact (proj1 (download_video_private_video
                  Scripted.engine_download Scripted.path_exists
                  url "720p" false None (Some "youtube")
                  Scripted.private_video Scripted.idle Scripted.PRIVATE_VIDEO_ERROR
                  Hvalid Hfirst Hpriv Hsigi Hfmt)).
Defined.

(** C5 as worded fails.  A message with ["Private video"] next to the
    extractor-outdated marker yields the extractor-outdated failure, not the
    private-video one; and a message with ["Private video"] whose video
    identifier spells FORMAT, which has no ["format"] as written, makes
    [download_video] run the engine a second time. *)
Lemma download_video_private_video_not_always :
  (contains "Private video" Scripted.OUTDATED_PRIVATE_ERROR = true
   /\ Scripted.download_video "https://www.tiktok.com/@user/video/7234567890" "best"
        false None (Some "tiktok") (Scripted.start Scripted.outdated_private)
      = (inr (failure MSG_EXTRACTOR_OUTDATED_INNER),
         {| world := Scripted.idle;
            trace := [ EngineDownload (get_base_opts "best" false (Some "tiktok"))
                         "https://www.tiktok.com/@user/video/7234567890" ] |})
   /\ failure MSG_EXTRACTOR_OUTDATED_INNER <> failure MSG_PRIVATE_VIDEO)
  /\ (contains "Private video" Scripted.PRIVATE_FORMAT_ID_ERROR = true
      /\ contains "format" Scripted.PRIVATE_FORMAT_ID_ERROR = false
      /\ contains "Unable to extract sigi state" Scripted.PRIVATE_FORMAT_ID_ERROR = false
      /\ fst (Scripted.download_video "https://youtu.be/xFORMATx_01" "best" false None
                (Some "youtube") (Scripted.start Scripted.private_with_format_id))
         = inr (failure MSG_PRIVATE_VIDEO)
      /\ engine_calls
           (snd (Scripted.download_video "https://youtu.be/xFORMATx_01" "best" false None
                   (Some "youtube") (Scripted.start Scripted.private_with_format_id)))
         = 2).
Proof.
  split; [split; [|split] | repeat split]; try (vm_compute; reflexivity).
  discriminate.
Qed.

(** A probe that fails on the network: no preview, no error. *)
Lemma get_video_info_swallows_failures_witness :
  Scripted.engine_probe (probe_options None) (sanitize_url "https://youtu.be/dQw4w9WgXcQ")
    Scripted.probe_failure
  = (inl (DownloadError "ERROR: Unable to download webpage"), Scripted.idle)
  /\ fst (Scripted.get_video_info "https://youtu.be/dQw4w9WgXcQ" None
            (Scripted.start Scripted.probe_failure)) = inr None.
Proof.
  assert (H :
    Scripted.engine_probe (probe_options None)
      (sanitize_url "https://youtu.be/dQw4w9WgXcQ") Scripted.probe_failure
    = (inl (DownloadError "ERROR: Unable to download webpage"), Scripted.idle))
    by reflexivity.
  split; [exact H|].
  exact (proj1 (proj2 (get_video_info_swallows_failures Scripted.engine_probe
                         "https://youtu.be/dQw4w9WgXcQ" None
                         (Scripted.start Scripted.probe_failure)))
           (DownloadError "ERROR: Unable to download webpage") Scripted.idle H).
Defined.

(* ====================================================================== *)
(** ** More on [URLProcessor.sanitize_url] *)
(* ====================================================================== *)

Lemma join_split_append (a b : string) :
  join_split (a ++ b) = join_split a ++ join_split b.
Proof.
  induction a as [|x a IH]; simpl; [reflexivity|].
  destruct (isspace x); simpl; now rewrite IH.
Qed.

Lemma join_split_spaces (ws : string) :
  all_chars isspace ws = true -> join_split ws = "".
Proof.
  induction ws as [|x ws IH]; simpl; [reflexivity|].
  rewrite andb_true_iff. intros [Hx Hws]. rewrite Hx. now apply IH.
Qed.

Lemma falsy_false (s : string) : s <> "" -> falsy s = false.
Proof. destruct s; [congruence | reflexivity]. Qed.

(** Every non-empty input comes out with an [http://] or [https://] prefix. *)
Theorem sanitize_url_result_has_scheme (url : string) :
  url <> "" ->
  startswith "http://" (sanitize_url url) = true
  \/ startswith "https://" (sanitize_url url) = true.
Proof.
  intros H. apply orb_true_iff.
  exact (sanitize_url_has_scheme url (falsy_false url H)).
Qed.

Lemma sanitize_url_result_has_scheme_witness :
  "  vm.tiktok.com/ZMabc " <> ""
  /\ (startswith "http://" (sanitize_url "  vm.tiktok.com/ZMabc ") = true
      \/ startswith "https://" (sanitize_url "  vm.tiktok.com/ZMabc ") = true).
Proof.
  assert (H : "  vm.tiktok.com/ZMabc " <> "") by discriminate.
  split; [exact H|].
  exact (sanitize_url_result_has_scheme "  vm.tiktok.com/ZMabc " H).
Defined.

(** The result of [sanitize_url] has no white-space character left, wherever
    the input had them. *)
Theorem sanitize_url_result_has_no_space (url : string) :
  all_chars nonspace (sanitize_url url) = true.
Proof.
  destruct (falsy url) eqn:Hf.
  - destruct url; [reflexivity | discriminate].
  - now apply sanitize_url_nonspace.
Qed.

(** White space pasted anywhere inside a link does not change the result, as
    long as something else is there. *)
Theorem sanitize_url_ignores_inner_space (before ws after : string) :
  all_chars isspace ws = true ->
  before ++ after <> "" ->
  sanitize_url (before ++ ws ++ after) = sanitize_url (before ++ after).
Proof.
  intros Hws Hne.
  assert (Hne' : before ++ ws ++ after <> "").
  { intros E. apply append_empty_inv in E. destruct E as [-> E].
    apply append_empty_inv in E. destruct E as [_ ->]. now apply Hne. }
  rewrite (sanitize_url_unfold _ (falsy_false _ Hne')),
          (sanitize_url_unfold _ (falsy_false _ Hne)).
  now rewrite !join_split_append, (join_split_spaces ws Hws).
Qed.

Lemma sanitize_url_ignores_inner_space_witness :
  (all_chars isspace (String "010" " ") = true
   /\ "https://youtu.be/" ++ "dQw4w9WgXcQ" <> "")
  /\ sanitize_url ("https://youtu.be/" ++ String "010" " " ++ "dQw4w9WgXcQ")
     = sanitize_url ("https://youtu.be/" ++ "dQw4w9WgXcQ").
Proof.
  assert (H1 : all_chars isspace (String "010" " ") = true) by reflexivity.
  assert (H2 : "https://youtu.be/" ++ "dQw4w9WgXcQ" <> "") by discriminate.
  split; [split; assumption|].
  exact (sanitize_url_ignores_inner_space "https://youtu.be/" (String "010" " ")
           "dQw4w9WgXcQ" H1 H2).
Defined.

(** An input of white space only, not empty, comes out as the bare scheme
    ["https://"], not as the empty string. *)
Theorem sanitize_url_of_blank_input (url : string) :
  url <> "" ->
  all_chars isspace url = true ->
  sanitize_url url = "https://".
Proof.
  intros Hne Hws.
  rewrite (sanitize_url_unfold _ (falsy_false _ Hne)), (join_split_spaces url Hws).
  reflexivity.
Qed.

Lemma sanitize_url_of_blank_input_witness :
  ("   " <> "" /\ all_chars isspace "   " = true)
  /\ sanitize_url "   " = "https://".
Proof.
  assert (H1 : "   " <> "") by discriminate.
  assert (H2 : all_chars isspace "   " = true) by reflexivity.
  split; [split; assumption|].
  exact (sanitize_url_of_blank_input "   " H1 H2).
Defined.

(* ====================================================================== *)
(** ** Detection against validation *)
(* ====================================================================== *)

Lemma dict_get_In {V : Type} (d : list (string * V)) (key : string) (v : V) :
  dict_get d key = Some v -> In (key, v) d.
Proof.
  induction d as [|[k w] rest IH]; simpl; [discriminate|].
  destruct (String.eqb k key) eqn:E.
  - intros H. injection H as <-. apply String.eqb_eq in E. subst. now left.
  - intros H. right. now apply IH.
Qed.

(** No rule of [PLATFORM_PATTERNS] matches in the empty string. *)
Lemma any_pattern_empty (platform : string) (rules : list Re.regex) :
  In (platform, rules) PLATFORM_PATTERNS -> any_pattern rules "" = false.
Proof.
  unfold PLATFORM_PATTERNS. cbn [In].
  intros [H | [H | [H | [H | [H | [H | []]]]]]];
    injection H as _ <-; vm_compute; reflexivity.
Qed.

Lemma is_valid_content_url_ungated (url platform : string) (rules : list Re.regex) :
  platform <> "tiktok" -> platform <> "youtube" ->
  dict_get PLATFORM_PATTERNS platform = Some rules ->
  any_pattern rules (lower url) = true ->
  is_valid_content_url url (Some platform) = true.
Proof.
  intros Ht Hy Hget Hm. unfold is_valid_content_url.
  assert (Hu : falsy url = false).
  { destruct url; [|reflexivity]. cbn [lower] in Hm.
    rewrite (any_pattern_empty platform rules (dict_get_In _ _ _ Hget)) in Hm.
    discriminate. }
  assert (Hp : falsy platform = false).
  { destruct platform; [discriminate Hget | reflexivity]. }
  rewrite Hu, Hp. cbn [orb]. cbv zeta.
  apply String.eqb_neq in Ht, Hy. rewrite Ht, Hy. cbn [andb].
  now rewrite Hget.
Qed.

(** A URL detected as instagram, facebook, twitter or snapchat is a valid
    content URL of that platform: only tiktok and youtube have a gate that
    can turn a detected URL away. *)
Theorem detected_platform_is_valid (url platform : string) :
  detect_platform url = Some platform ->
  platform <> "tiktok" ->
  platform <> "youtube" ->
  is_valid_content_url url (Some platform) = true.
Proof.
  intros Hd Ht Hy. unfold detect_platform in Hd.
  apply detect_in_some in Hd. destruct Hd as [earlier [rules [later [E [Hm _]]]]].
  apply (is_valid_content_url_ungated url platform rules Ht Hy); [|exact Hm].
  assert (Hin : In (platform, rules) PLATFORM_PATTERNS).
  { rewrite E. apply in_elt. }
  clear E Hm. unfold PLATFORM_PATTERNS in Hin. cbn [In] in Hin.
  destruct Hin as [H | [H | [H | [H | [H | [H | []]]]]]];
    injection H as <- <-; try contradiction; reflexivity.
Qed.

Lemma detected_platform_is_valid_witness :
  (detect_platform "https://www.instagram.com/reel/Cabc_-1/" = Some "instagram"
   /\ "instagram" <> "tiktok" /\ "instagram" <> "youtube")
  /\ is_valid_content_url "https://www.instagram.com/reel/Cabc_-1/" (Some "instagram")
     = true.
Proof.
  assert (H1 : detect_platform "https://www.instagram.com/reel/Cabc_-1/"
               = Some "instagram") by (vm_compute; reflexivity).
  assert (H2 : "instagram" <> "tiktok") by discriminate.
  assert (H3 : "instagram" <> "youtube") by discriminate.
  split; [repeat split; assumption|].
  exact (detected_platform_is_valid _ _ H1 H2 H3).
Defined.

(** An accepted URL has passed the last step of the validator: the rules of
    the platform are there and one of them is found. *)
Lemma is_valid_content_url_any_pattern (url platform : string) :
  is_valid_content_url url (Some platform) = true ->
  exists rules,
    dict_get PLATFORM_PATTERNS platform = Some rules
    /\ any_pattern rules (lower url) = true.
Proof.
  unfold is_valid_content_url.
  destruct (falsy url || falsy platform); [discriminate|]. cbv zeta.
  destruct (String.eqb platform "tiktok" && tiktok_rejects (lower url)); [discriminate|].
  destruct (String.eqb platform "youtube" && youtube_rejects (lower url)); [discriminate|].
  destruct (dict_get PLATFORM_PATTERNS platform) as [rules|] eqn:Hget; [|discriminate].
  intros Hm. now exists rules.
Qed.

(** A URL that the validator accepts for a platform matches one of that
    platform's rules somewhere in its lower-cased form, and is detected as
    some platform. *)
Theorem valid_content_url_matches_a_rule (url platform : string) :
  is_valid_content_url url (Some platform) = true ->
  (exists rules rule,
     dict_get PLATFORM_PATTERNS platform = Some rules
     /\ In rule rules
     /\ Re.matches_anywhere rule (lower url))
  /\ exists detected, detect_platform url = Some detected.
Proof.
  intros H. destruct (is_valid_content_url_any_pattern url platform H) as [rules [Hget Hm]].
  split.
  - apply any_pattern_spec in Hm. destruct Hm as [rule [Hin Hr]].
    now exists rules, rule.
  - destruct (detect_platform url) as [detected|] eqn:Hd; [now exists detected|].
    unfold detect_platform in Hd.
    rewrite (proj1 (detect_in_none _ _) Hd platform rules (dict_get_In _ _ _ Hget)) in Hm.
    discriminate.
Qed.

Lemma valid_content_url_matches_a_rule_witness :
  is_valid_content_url "https://fb.watch/abc" (Some "facebook") = true
  /\ exists detected, detect_platform "https://fb.watch/abc" = Some detected.
Proof.
  assert (H : is_valid_content_url "https://fb.watch/abc" (Some "facebook") = true)
    by (vm_compute; reflexivity).
  split; [exact H|].
  exact (proj2 (valid_content_url_matches_a_rule "https://fb.watch/abc" "facebook" H)).
Defined.

(** For platform youtube the validator turns away every URL whose lower-cased
    form has none of ["watch?v="], ["/shorts/"], ["youtu.be/"], whether or not
    a youtube rule matches it: embed and [/v/] links are detected as youtube
    and are not valid content URLs. *)
Theorem is_valid_content_url_youtube_gate (url : string) :
  contains "watch?v=" (lower url) = false ->
  contains "/shorts/" (lower url) = false ->
  contains "youtu.be/" (lower url) = false ->
  is_valid_content_url url (Some "youtube") = false.
Proof.
  intros H1 H2 H3. unfold is_valid_content_url.
  destruct (falsy url || falsy "youtube"); [reflexivity|]. cbv zeta.
  unfold youtube_rejects. rewrite H1, H2, H3.
  change (String.eqb "youtube" "tiktok") with false.
  change (String.eqb "youtube" "youtube") with true.
  reflexivity.
Qed.

Lemma is_valid_content_url_youtube_gate_witness :
  (contains "watch?v=" (lower "https://www.youtube.com/embed/dQw4w9WgXcQ") = false
   /\ contains "/shorts/" (lower "https://www.youtube.com/embed/dQw4w9WgXcQ") = false
   /\ contains "youtu.be/" (lower "https://www.youtube.com/embed/dQw4w9WgXcQ") = false)
  /\ detect_platform "https://www.youtube.com/embed/dQw4w9WgXcQ" = Some "youtube"
  /\ is_valid_content_url "https://www.youtube.com/embed/dQw4w9WgXcQ" (Some "youtube")
     = false.
Proof.
  assert (H1 : contains "watch?v=" (lower "https://www.youtube.com/embed/dQw4w9WgXcQ")
               = false) by (vm_compute; reflexivity).
  assert (H2 : contains "/shorts/" (lower "https://www.youtube.com/embed/dQw4w9WgXcQ")
               = false) by (vm_compute; reflexivity).
  assert (H3 : contains "youtu.be/" (lower "https://www.youtube.com/embed/dQw4w9WgXcQ")
               = false) by (vm_compute; reflexivity).
  split; [repeat split; assumption|].
  split; [vm_compute; reflexivity|].
  exact (is_valid_content_url_youtube_gate _ H1 H2 H3).
Defined.

(** A platform name that is not a key of [PLATFORM_PATTERNS] makes every URL
    invalid. *)
Theorem is_valid_content_url_unknown_platform (url platform : string) :
  dict_get PLATFORM_PATTERNS platform = None ->
  is_valid_content_url url (Some platform) = false.
Proof.
  intros H. unfold is_valid_content_url.
  destruct (falsy url || falsy platform); [reflexivity|]. cbv zeta.
  destruct (String.eqb platform "tiktok" && tiktok_rejects (lower url)); [reflexivity|].
  destruct (String.eqb platform "youtube" && youtube_rejects (lower url)); [reflexivity|].
  now rewrite H.
Qed.

Lemma is_valid_content_url_unknown_platform_witness :
  dict_get PLATFORM_PATTERNS "vimeo" = None
  /\ is_valid_content_url "https://vimeo.com/76979871" (Some "vimeo") = false.
Proof.
  assert (H : dict_get PLATFORM_PATTERNS "vimeo" = None) by reflexivity.
  split; [exact H|].
  exact (is_valid_content_url_unknown_platform "https://vimeo.com/76979871" "vimeo" H).
Defined.

(** A literal pattern matches its own text and nothing else. *)
Lemma matches_Lit (s w : string) : Re.matches (Re.Lit s) w <-> w = s.
Proof.
  revert w. induction s as [|c t IH]; intros w.
  - apply matches_Eps_iff.
  - destruct t as [|d t].
    + cbn [Re.Lit]. unfold Re.Chr. rewrite matches_Class_iff.
      unfold Re.class_mem. cbn [existsb Re.item_mem]. split.
      * intros [c' [-> H]]. rewrite orb_false_r in H.
        apply ascii_eqb_true in H. now subst.
      * intros ->. exists c. split; [reflexivity|].
        now rewrite Ascii.eqb_refl.
    + change (Re.Lit (String c (String d t)))
        with (Re.Cat (Re.Chr c) (Re.Lit (String d t))).
      rewrite matches_Cat_iff. split.
      * intros [s1 [s2 [-> [H1 H2]]]]. apply IH in H2. subst s2.
        unfold Re.Chr in H1. apply matches_Class_iff in H1.
        destruct H1 as [c' [-> H]]. unfold Re.class_mem in H.
        cbn [existsb Re.item_mem] in H. rewrite orb_false_r in H.
        apply ascii_eqb_true in H. now subst.
      * intros ->. exists (String c ""), (String d t). repeat split.
        -- unfold Re.Chr. apply matches_Class_iff. exists c. split; [reflexivity|].
           unfold Re.class_mem. cbn [existsb Re.item_mem]. now rewrite Ascii.eqb_refl.
        -- now apply IH.
Qed.

(** A pattern that begins with a literal matches only strings that begin
    with it. *)
Lemma matches_Lit_Cat (s : string) (r : Re.regex) (w : string) :
  Re.matches (Re.Cat (Re.Lit s) r) w <-> exists rest, w = s ++ rest /\ Re.matches r rest.
Proof.
  rewrite matches_Cat_iff. split.
  - intros [s1 [s2 [-> [H1 H2]]]]. apply matches_Lit in H1. subst. now exists s2.
  - intros [rest [-> H]]. exists s, rest. repeat split; [now apply matches_Lit | exact H].
Qed.

(** Whatever a tiktok rule matches carries one of the three keywords. *)
Lemma tiktok_rule_has_keyword (rules : list Re.regex) (rule : Re.regex) (l : string) :
  dict_get PLATFORM_PATTERNS "tiktok" = Some rules ->
  In rule rules ->
  Re.matches_anywhere rule l ->
  contains "/video/" l || contains "vm.tiktok" l || contains "vt.tiktok" l = true.
Proof.
  intros Hget Hin [pre [mid [post [-> Hm]]]].
  unfold PLATFORM_PATTERNS in Hget. cbn [dict_get] in Hget.
  change (String.eqb "youtube" "tiktok") with false in Hget.
  change (String.eqb "tiktok" "tiktok") with true in Hget.
  cbv iota in Hget. injection Hget as <-. cbn [In] in Hin.
  destruct Hin as [<- | [<- | [<- | []]]].
  - apply (matches_Lit_Cat "tiktok.com/@") in Hm. destruct Hm as [r1 [-> Hm]].
    apply matches_Cat_iff in Hm. destruct Hm as [name [r2 [-> [_ Hm]]]].
    apply (matches_Lit_Cat "/video/") in Hm. destruct Hm as [digits [-> _]].
    assert (H : contains "/video/"
                  (pre ++ ("tiktok.com/@" ++ name ++ "/video/" ++ digits) ++ post) = true).
    { apply contains_spec. exists (pre ++ "tiktok.com/@" ++ name), (digits ++ post).
      now rewrite !append_assoc. }
    now rewrite H.
  - apply (matches_Lit_Cat "vm.tiktok.com/") in Hm. destruct Hm as [code [-> _]].
    assert (H : contains "vm.tiktok" (pre ++ ("vm.tiktok.com/" ++ code) ++ post) = true).
    { apply contains_spec. exists pre, (".com/" ++ code ++ post).
      now rewrite !append_assoc. }
    rewrite H. now rewrite orb_true_r.
  - apply (matches_Lit_Cat "vt.tiktok.com/") in Hm. destruct Hm as [code [-> _]].
    assert (H : contains "vt.tiktok" (pre ++ ("vt.tiktok.com/" ++ code) ++ post) = true).
    { apply contains_spec. exists pre, (".com/" ++ code ++ post).
      now rewrite !append_assoc. }
    rewrite H. now rewrite !orb_true_r.
Qed.

(** For platform tiktok the validator accepts a URL exactly when its
    lower-cased form has no ["/explore"], does not end with the bare domain,
    and matches a tiktok rule somewhere.  The keyword gate adds nothing: it
    never turns away a URL that a tiktok rule matches. *)
Theorem is_valid_content_url_tiktok_iff (url : string) :
  is_valid_content_url url (Some "tiktok") = true <->
  contains "/explore" (lower url) = false
  /\ endswith "tiktok.com/" (lower url) = false
  /\ endswith "tiktok.com" (lower url) = false
  /\ exists rules rule,
       dict_get PLATFORM_PATTERNS "tiktok" = Some rules
       /\ In rule rules
       /\ Re.matches_anywhere rule (lower url).
Proof.
  split.
  - intros H.
    assert (Hrule : exists rules rule,
              dict_get PLATFORM_PATTERNS "tiktok" = Some rules
              /\ In rule rules /\ Re.matches_anywhere rule (lower url)).
    { destruct (is_valid_content_url_any_pattern url "tiktok" H) as [rules [Hget Hm]].
      apply any_pattern_spec in Hm. destruct Hm as [rule [Hin Hr]].
      now exists rules, rule. }
    destruct (tiktok_rejects (lower url)) eqn:Hrej.
    + rewrite (is_valid_content_url_tiktok url Hrej) in H. discriminate.
    + unfold tiktok_rejects in Hrej.
      destruct (contains "/explore" (lower url)); [discriminate|].
      destruct (endswith "tiktok.com/" (lower url)); [discriminate|].
      destruct (endswith "tiktok.com" (lower url)); [discriminate|].
      repeat split. exact Hrule.
  - intros [He [H1 [H2 [rules [rule [Hget [Hin Hm]]]]]]].
    pose proof (tiktok_rule_has_keyword rules rule (lower url) Hget Hin Hm) as Hk.
    assert (Hany : any_pattern rules (lower url) = true).
    { apply any_pattern_spec. now exists rule. }
    unfold is_valid_content_url.
    assert (Hu : falsy url = false).
    { destruct url; [|reflexivity]. cbn [lower] in Hany.
      rewrite (any_pattern_empty "tiktok" rules (dict_get_In _ _ _ Hget)) in Hany.
      discriminate. }
    rewrite Hu. cbn [falsy orb]. cbv zeta.
    unfold tiktok_rejects. rewrite He, H1, H2, Hk. cbn [orb negb andb].
    change (String.eqb "tiktok" "tiktok") with true.
    change (String.eqb "tiktok" "youtube") with false.
    cbn [andb]. now rewrite Hget.
Qed.

(* ====================================================================== *)
(** ** More on the engine options *)
(* ====================================================================== *)

Lemma map_get_or_best_tiktok (quality : string) :
  In (map_get_or_best TIKTOK_QUALITY_MAP quality) (map snd TIKTOK_QUALITY_MAP).
Proof.
  unfold map_get_or_best, TIKTOK_QUALITY_MAP. cbn [dict_get].
  repeat match goal with
         | |- context [String.eqb ?a quality] =>
             destruct (String.eqb a quality); [simpl; tauto|]
         end.
  simpl. tauto.
Qed.

(** A quality that is none of the five keys selects what "best" selects. *)
Theorem format_selector_unknown_quality
    (quality : string) (extract_audio : bool) (platform : option string) :
  ~ In quality ["best"; "1080p"; "720p"; "480p"; "360p"] ->
  _get_format_selector quality extract_audio platform
    = _get_format_selector "best" extract_audio platform.
Proof.
  intros H. unfold _get_format_selector.
  destruct extract_audio; [reflexivity|].
  assert (Hk : forall k, In k ["best"; "1080p"; "720p"; "480p"; "360p"] ->
                 String.eqb k quality = false).
  { intros k Hin. apply String.eqb_neq. intros ->. now apply H. }
  destruct (is_tiktok platform);
    unfold map_get_or_best, TIKTOK_QUALITY_MAP, DEFAULT_QUALITY_MAP;
    cbn [dict_get];
    rewrite !Hk by (simpl; tauto); reflexivity.
Qed.

Lemma format_selector_unknown_quality_witness :
  ~ In "4k" ["best"; "1080p"; "720p"; "480p"; "360p"]
  /\ _get_format_selector "4k" false (Some "tiktok")
     = _get_format_selector "best" false (Some "tiktok").
Proof.
  assert (H : ~ In "4k" ["best"; "1080p"; "720p"; "480p"; "360p"]).
  { simpl. intros [H | [H | [H | [H | [H | []]]]]]; discriminate. }
  split; [exact H|].
  exact (format_selector_unknown_quality "4k" false (Some "tiktok") H).
Defined.

(** Every format expression, whatever the quality, the audio flag and the
    platform, has at least two alternatives and ends with a single-stream
    fallback: its last alternative starts with ["best"] and is no [+] pair. *)
Theorem format_selector_ends_with_fallback
    (quality : string) (extract_audio : bool) (platform : option string) :
  exists earlier last,
    alternatives (_get_format_selector quality extract_audio platform)
      = (earlier ++ [last])%list
    /\ earlier <> []
    /\ startswith "best" last = true
    /\ contains "+" last = false.
Proof.
  assert (H : In (_get_format_selector quality extract_audio platform)
                ("bestaudio/best"
                 :: map snd TIKTOK_QUALITY_MAP ++ map snd DEFAULT_QUALITY_MAP)%list).
  { unfold _get_format_selector. destruct extract_audio; [now left|]. right.
    apply in_or_app. destruct (is_tiktok platform);
      [left; apply map_get_or_best_tiktok | right; apply map_get_or_best_default]. }
  cbn [map snd TIKTOK_QUALITY_MAP DEFAULT_QUALITY_MAP app] in H. cbn [In] in H.
  repeat (destruct H as [<- | H];
          [ match goal with
            | |- exists _ _, alternatives ?e = _ /\ _ =>
                exists (removelast (alternatives e)), (List.last (alternatives e) "")
            end;
            split; [vm_compute; reflexivity|];
            split; [vm_compute; discriminate|];
            split; vm_compute; reflexivity |]).
  destruct H.
Qed.

(** [get_base_opts] asks for a merge into mp4 exactly when the audio is not
    extracted, on every platform, tiktok included, and attaches the mp3
    post-processor exactly when it is; the format is the selector's. *)
Theorem get_base_opts_merge_or_extract
    (Hook : Type) (quality : string) (extract_audio : bool) (platform : option string) :
  let opts : ydl_opts Hook := get_base_opts quality extract_audio platform in
  merge_output_format opts = (if extract_audio then None else Some "mp4")
  /\ postprocessors opts
     = (if extract_audio
        then Some [ {| key := "FFmpegExtractAudio"; preferredcodec := "mp3";
                       preferredquality := "192" |} ]
        else None)
  /\ format opts = _get_format_selector quality extract_audio platform
  /\ outtmpl opts = OUTTMPL
  /\ noplaylist opts = true
  /\ progress_hooks opts = None.
Proof.
  unfold get_base_opts. cbv zeta.
  destruct extract_audio; destruct (is_tiktok platform); repeat split.
Qed.

(** The probe and the download are shaped alike: both send the same headers
    and extractor arguments, with the [Referer] header and the
    webpage-download flag exactly for tiktok, and the probe never asks for a
    download. *)
Theorem probe_and_download_share_request_shape
    (Hook : Type) (quality : string) (extract_audio : bool) (platform : option string) :
  let opts : ydl_opts Hook := get_base_opts quality extract_audio platform in
  http_headers opts = p_http_headers (probe_options platform)
  /\ extractor_args opts = p_extractor_args (probe_options platform)
  /\ p_skip_download (probe_options platform) = true
  /\ dict_get (http_headers opts) "User-Agent" = Some USER_AGENT
  /\ dict_get (http_headers opts) "Referer"
     = (if is_tiktok platform then Some "https://www.tiktok.com/" else None)
  /\ extractor_args opts
     = (if is_tiktok platform then Some TIKTOK_EXTRACTOR_ARGS else None).
Proof.
  unfold get_base_opts, probe_options. cbv zeta.
  destruct extract_audio; destruct (is_tiktok platform); repeat split.
Qed.

(* ====================================================================== *)
(** ** Every run of [download_video] *)
(* ====================================================================== *)

Lemma rsplit1_head_no_separator (c : ascii) (s : string) :
  count c s = 0 -> rsplit1_head c s = s.
Proof.
  destruct s as [|a t]; [reflexivity|]. cbn [rsplit1_head count].
  destruct (Ascii.eqb a c); [discriminate|]. cbn [Nat.add].
  intros ->. reflexivity.
Qed.

(** [rsplit('.', 1)[0]] drops the last extension and nothing else. *)
Lemma rsplit1_head_stem (c : ascii) (stem ext : string) :
  count c ext = 0 -> rsplit1_head c (stem ++ String c ext) = stem.
Proof.
  intros H. induction stem as [|a stem IH].
  - cbn [append rsplit1_head]. now rewrite H, Ascii.eqb_refl.
  - cbn [append rsplit1_head]. rewrite IH.
    rewrite count_append. cbn [count]. rewrite Ascii.eqb_refl.
    replace (0 <? count c stem + (1 + count c ext)) with true; [reflexivity|].
    symmetry. apply Nat.ltb_lt. lia.
Qed.

Lemma engine_calls_snoc_download {Hook World : Type} (w w' : World)
    (tr : list (event Hook)) (opts : ydl_opts Hook) (url : string) :
  engine_calls {| world := w'; trace := (tr ++ [EngineDownload opts url])%list |}
  = S (engine_calls {| world := w; trace := tr |}).
Proof.
  unfold engine_calls. cbn [trace]. rewrite filter_app, length_app. simpl. lia.
Qed.

Lemma engine_calls_snoc_info {Hook World : Type} (w w' : World)
    (tr : list (event Hook)) (msg : string) :
  engine_calls {| world := w'; trace := (tr ++ [StInfo msg])%list |}
  = engine_calls {| world := w; trace := tr |}.
Proof.
  unfold engine_calls. cbn [trace]. rewrite filter_app, length_app. simpl. lia.
Qed.

Section DownloadRuns.

Context {Hook World : Type}.
Variable engine_download :
  ydl_opts Hook -> string -> World -> (exn + download_info) * World.
Variable engine_probe :
  probe_opts -> string -> World -> (exn + option info_dict) * World.
Variable path_exists : string -> World -> bool.

Local Abbreviation download_video :=
  (DownloadManager.download_video Hook World engine_download path_exists).
Local Abbreviation get_video_info :=
  (DownloadManager.get_video_info Hook World engine_probe).
Local Abbreviation outcome_of := (App.attempt_outcome path_exists).

(** The whole decision tree of [download_video], one engine answer at a
    time. *)
Lemma download_video_unfold
    (url quality : string) (extract_audio : bool) (progress_hook : option Hook)
    (platform : option string) (s : state Hook World) :
  download_video url quality extract_audio progress_hook platform s =
  let resolved_url := sanitize_url url in
  let opts := with_progress_hook progress_hook
                (get_base_opts quality extract_audio platform) in
  if is_valid_content_url resolved_url platform then
    let '(r1, w1) := engine_download opts resolved_url (world s) in
    let s1 := {| world := w1;
                 trace := (trace s ++ [EngineDownload opts resolved_url])%list |} in
    match r1 with
    | inr info => (inr (outcome_of extract_audio info w1), s1)
    | inl (OtherException msg) => (inr (failure ("Unexpected error: " ++ msg)), s1)
    | inl (DownloadError error_msg) =>
        if contains "Unable to extract sigi state" error_msg then
          (inr (failure MSG_EXTRACTOR_OUTDATED_INNER), s1)
        else if contains "Requested format is not available" error_msg
                || contains "format" (lower error_msg) then
          let '(r2, w2) := engine_download (fallback_opts opts) resolved_url w1 in
          (inr match r2 with
               | inr info => outcome_of extract_audio info w2
               | inl (DownloadError msg) => classify_download_error msg
               | inl (OtherException msg) => failure ("Unexpected error: " ++ msg)
               end,
           {| world := w2;
              trace := (((trace s ++ [EngineDownload opts resolved_url])
                         ++ [StInfo MSG_FORMAT_FALLBACK])
                        ++ [EngineDownload (fallback_opts opts) resolved_url])%list |})
        else (inr (classify_download_error error_msg), s1)
    end
  else (inr (failure MSG_INVALID_CONTENT_URL), s).
Proof.
  cbv zeta. unfold DownloadManager.download_video.
  unfold try_except at 1. cbv zeta.
  destruct (is_valid_content_url (sanitize_url url) platform); cbn [negb];
    [|reflexivity].
  unfold try_except. rewrite attempt_run.
  destruct (engine_download _ (sanitize_url url) (world s)) as [[[m | m] | info] w1];
    cbv zeta.
  - unfold format_error_handler.
    destruct (contains "Unable to extract sigi state" m); [reflexivity|].
    destruct (contains "Requested format is not available" m
              || contains "format" (lower m)); [|reflexivity].
    unfold bind, log. cbv zeta. rewrite attempt_run. cbn [world trace].
    destruct (engine_download (fallback_opts _) (sanitize_url url) w1)
      as [[[m2 | m2] | info2] w2]; try reflexivity.
    unfold App.attempt_outcome.
    now destruct (path_exists (final_filename extract_audio info2) w2).
  - reflexivity.
  - unfold App.attempt_outcome.
    now destruct (path_exists (final_filename extract_audio info) w1).
Qed.

Lemma classify_download_error_shape (error_msg : string) :
  exists msg, classify_download_error error_msg = failure msg.
Proof.
  unfold classify_download_error.
  repeat match goal with
         | |- context [if ?b then _ else _] => destruct b
         end; eexists; reflexivity.
Qed.

(** The cases of a finished run, for the invariants below. *)
Ltac download_cases url quality extract_audio progress_hook platform s :=
  rewrite (download_video_unfold url quality extract_audio progress_hook platform s);
  cbv zeta;
  destruct (is_valid_content_url (sanitize_url url) platform);
  [ destruct (engine_download
                (with_progress_hook progress_hook
                   (get_base_opts quality extract_audio platform))
                (sanitize_url url) (world s)) as [[[m1 | m1] | info1] w1];
    [ destruct (contains "Unable to extract sigi state" m1);
      [ | destruct (contains "Requested format is not available" m1
                    || contains "format" (lower m1));
          [ destruct (engine_download
                        (fallback_opts
                           (with_progress_hook progress_hook
                              (get_base_opts quality extract_audio platform)))
                        (sanitize_url url) w1) as [[[m2 | m2] | info2] w2] | ] ]
    | | ]
  | ].


(** A success names a file that exists when the run ends; a failure names
    no file. *)
Theorem download_video_success_has_file
    (url quality : string) (extract_audio : bool) (progress_hook : option Hook)
    (platform : option string) (s s' : state Hook World)
    (success : bool) (filepath message : option string) :
  download_video url quality extract_audio progress_hook platform s
    = (inr (success, filepath, message), s') ->
  if success
  then exists filename, filepath = Some filename /\ path_exists filename (world s') = true
  else filepath = None.
Proof.
  download_cases url quality extract_audio progress_hook platform s;
    unfold App.attempt_outcome;
    repeat match goal with
           | |- context [classify_download_error ?m] =>
               destruct (classify_download_error_shape m) as [? ->]
           | |- context [if path_exists ?f ?w then _ else _] =>
               destruct (path_exists f w) eqn:?
           end;
    unfold failure; intros H; injection H as <- <- <- <-;
    try reflexivity; eexists; (split; [reflexivity | assumption]).
Qed.

(** One run of [download_video] invokes the engine at most twice, and only
    adds to the trace. *)
Theorem download_video_at_most_two_engine_runs
    (url quality : string) (extract_audio : bool) (progress_hook : option Hook)
    (platform : option string) (s : state Hook World) :
  let s' := snd (download_video url quality extract_audio progress_hook platform s) in
  engine_calls s <= engine_calls s' <= engine_calls s + 2
  /\ exists added, trace s' = (trace s ++ added)%list.
Proof.
  cbv zeta. destruct s as [w tr].
  download_cases url quality extract_audio progress_hook platform
                 ({| world := w; trace := tr |});
    cbn [snd world trace];
    (split;
     [ rewrite ?(engine_calls_snoc_download w), ?(engine_calls_snoc_info w),
               ?(engine_calls_snoc_download w); lia
     | rewrite <- ?app_assoc; eexists; try reflexivity;
       symmetry; apply app_nil_r ]).
Qed.

(** With the audio extracted, a success names an [.mp3] file: the prepared
    name with its last extension replaced. *)
Theorem download_video_audio_is_mp3
    (url quality : string) (progress_hook : option Hook)
    (platform : option string) (s s' : state Hook World)
    (filename : string) (message : option string) :
  download_video url quality true progress_hook platform s
    = (inr (true, Some filename, message), s') ->
  endswith ".mp3" filename = true.
Proof.
  download_cases url quality true progress_hook platform s;
    unfold App.attempt_outcome;
    repeat match goal with
           | |- context [classify_download_error ?m] =>
               destruct (classify_download_error_shape m) as [? ->]
           | |- context [if path_exists ?f ?w then _ else _] =>
               destruct (path_exists f w)
           end;
    unfold failure; intros H; try discriminate H;
    injection H as <- _ _; unfold final_filename;
    apply endswith_spec; eexists; reflexivity.
Qed.

(** The extractor-outdated marker ends the run after the first engine call,
    with the upgrade hint, even when the message also speaks of a format. *)
Theorem download_video_extractor_outdated
    (url quality : string) (extract_audio : bool) (progress_hook : option Hook)
    (platform : option string) (w w1 : World) (error_msg : string) :
  let resolved_url := sanitize_url url in
  let opts := with_progress_hook progress_hook
                (get_base_opts quality extract_audio platform) in
  is_valid_content_url resolved_url platform = true ->
  engine_download opts resolved_url w = (inl (DownloadError error_msg), w1) ->
  contains "Unable to extract sigi state" error_msg = true ->
  download_video url quality extract_audio progress_hook platform (initial w)
  = (inr (failure MSG_EXTRACTOR_OUTDATED_INNER),
     {| world := w1; trace := [EngineDownload opts resolved_url] |}).
Proof.
  intros resolved_url opts Hvalid Hfirst Hsigi.
  rewrite download_video_unfold. cbv zeta.
  fold resolved_url. fold opts. rewrite Hvalid.
  cbn [world trace initial]. rewrite Hfirst, Hsigi. reflexivity.
Qed.

(** An exception of the first engine run that is not a download error is
    never retried, whatever its message: the outcome is the unexpected-error
    failure with the raw message. *)
Theorem download_video_unexpected_error
    (url quality : string) (extract_audio : bool) (progress_hook : option Hook)
    (platform : option string) (w w1 : World) (msg : string) :
  let resolved_url := sanitize_url url in
  let opts := with_progress_hook progress_hook
                (get_base_opts quality extract_audio platform) in
  is_valid_content_url resolved_url platform = true ->
  engine_download opts resolved_url w = (inl (OtherException msg), w1) ->
  download_video url quality extract_audio progress_hook platform (initial w)
  = (inr (failure ("Unexpected error: " ++ msg)),
     {| world := w1; trace := [EngineDownload opts resolved_url] |}).
Proof.
  intros resolved_url opts Hvalid Hfirst.
  rewrite download_video_unfold. cbv zeta.
  fold resolved_url. fold opts. rewrite Hvalid.
  cbn [world trace initial]. rewrite Hfirst. reflexivity.
Qed.

(** A download error of the first run without the marker and without format
    text is classified by its message, after that single run. *)
Theorem download_video_classifies_other_errors
    (url quality : string) (extract_audio : bool) (progress_hook : option Hook)
    (platform : option string) (w w1 : World) (error_msg : string) :
  let resolved_url := sanitize_url url in
  let opts := with_progress_hook progress_hook
                (get_base_opts quality extract_audio platform) in
  is_valid_content_url resolved_url platform = true ->
  engine_download opts resolved_url w = (inl (DownloadError error_msg), w1) ->
  contains "Unable to extract sigi state" error_msg = false ->
  contains "format" (lower error_msg) = false ->
  download_video url quality extract_audio progress_hook platform (initial w)
  = (inr (classify_download_error error_msg),
     {| world := w1; trace := [EngineDownload opts resolved_url] |}).
Proof.
  intros resolved_url opts Hvalid Hfirst Hsigi Hfmt.
  rewrite download_video_unfold. cbv zeta.
  fold resolved_url. fold opts. rewrite Hvalid.
  cbn [world trace initial].
  rewrite Hfirst, Hsigi, Hfmt, (requested_format_has_format _ Hfmt). reflexivity.
Qed.

(** [get_video_info] runs the engine once, as a probe of the sanitised URL,
    and never downloads: the trace gains that one probe and the number of
    download runs is unchanged. *)
Theorem get_video_info_probes_once
    (url : string) (platform : option string) (s : state Hook World) :
  let s' := snd (get_video_info url platform s) in
  trace s' = (trace s ++ [EngineProbe (probe_options platform) (sanitize_url url)])%list
  /\ world s' = snd (engine_probe (probe_options platform) (sanitize_url url) (world s))
  /\ engine_calls s' = engine_calls s.
Proof.
  cbv zeta.
  unfold DownloadManager.get_video_info, try_except, bind, run_probe, ret, raise.
  cbv zeta.
  destruct (engine_probe (probe_options platform) (sanitize_url url) (world s))
    as [[e | [info |]] w]; cbn [snd trace world]; repeat split;
    unfold engine_calls; cbn [trace]; rewrite filter_app; simpl;
    now rewrite app_nil_r.
Qed.

End DownloadRuns.

(** The name of the audio artifact: the last extension of the prepared name
    gives way to [.mp3], a name without extension gets [.mp3] appended, and
    without audio extraction the prepared name is kept. *)
Theorem final_filename_replaces_extension (stem ext : string) (info_title : option string) :
  count "." ext = 0 ->
  final_filename true {| prepared_filename := stem ++ "." ++ ext; info_title := info_title |}
    = stem ++ ".mp3"
  /\ final_filename true {| prepared_filename := ext; info_title := info_title |}
     = ext ++ ".mp3"
  /\ final_filename false {| prepared_filename := stem ++ "." ++ ext;
                             info_title := info_title |}
     = stem ++ "." ++ ext.
Proof.
  intros H. unfold final_filename. cbn [prepared_filename]. repeat split.
  - change (stem ++ "." ++ ext) with (stem ++ String "." ext).
    now rewrite (rsplit1_head_stem "." stem ext H).
  - now rewrite (rsplit1_head_no_separator "." ext H).
Qed.

Lemma final_filename_replaces_extension_witness :
  count "." "webm" = 0
  /\ final_filename true {| prepared_filename := "downloads/Mr. Clip v1.2" ++ "." ++ "webm";
                            info_title := None |}
     = "downloads/Mr. Clip v1.2" ++ ".mp3".
Proof.
  assert (H : count "." "webm" = 0) by reflexivity.
  split; [exact H|].
  exact (proj1 (final_filename_replaces_extension "downloads/Mr. Clip v1.2" "webm" None H)).
Defined.

Lemma contains_prefix (p q s : string) :
  contains (p ++ q) s = true -> contains p s = true.
Proof.
  rewrite !contains_spec. intros [a [b ->]]. exists a, (q ++ b).
  now rewrite append_assoc.
Qed.

(** The outer classification reads the lower-cased message only, apart from
    the marker and the unsupported-URL text: its exact-case tests never
    decide.  So a message is age-restricted as soon as the letters "age"
    occur in it, inside a word too, unless an earlier test applies. *)
Theorem classify_download_error_by_keywords (error_msg : string) :
  classify_download_error error_msg =
    if contains "Unable to extract sigi state" error_msg then
      failure MSG_EXTRACTOR_OUTDATED
    else if contains "private" (lower error_msg) then failure MSG_PRIVATE_VIDEO
    else if contains "unavailable" (lower error_msg) then failure MSG_VIDEO_UNAVAILABLE
    else if contains "age" (lower error_msg) then failure MSG_AGE_RESTRICTED
    else if contains "Unsupported URL" error_msg then failure MSG_UNSUPPORTED_URL
    else failure ("Download error: " ++ error_msg).
Proof.
  unfold classify_download_error.
  assert (H1 : contains "Private video" error_msg = true ->
               contains "private" (lower error_msg) = true).
  { intros H. apply contains_lower in H. now apply (contains_prefix "private" " video"). }
  assert (H2 : contains "Video unavailable" error_msg = true ->
               contains "unavailable" (lower error_msg) = true).
  { intros H. apply contains_lower in H. apply contains_spec in H.
    destruct H as [a [b E]]. apply contains_spec. exists (a ++ "video "), b.
    rewrite E, append_assoc. reflexivity. }
  assert (H3 : contains "Sign in to confirm your age" error_msg = true ->
               contains "age" (lower error_msg) = true).
  { intros H. apply contains_lower in H. apply contains_spec in H.
    destruct H as [a [b E]]. apply contains_spec. exists (a ++ "sign in to confirm your "), b.
    rewrite E, append_assoc. reflexivity. }
  destruct (contains "Unable to extract sigi state" error_msg); [reflexivity|].
  destruct (contains "Private video" error_msg);
    [now rewrite H1 | cbn [orb]].
  destruct (contains "private" (lower error_msg)); [reflexivity|].
  destruct (contains "Video unavailable" error_msg);
    [now rewrite H2 | cbn [orb]].
  destruct (contains "unavailable" (lower error_msg)); [reflexivity|].
  destruct (contains "Sign in to confirm your age" error_msg);
    [now rewrite H3 | cbn [orb]].
  reflexivity.
Qed.

(* ====================================================================== *)
(** ** Runs on the scripted engine *)
(* ====================================================================== *)

Lemma download_video_success_has_file_witness :
  Scripted.download_video "https://youtu.be/dQw4w9WgXcQ" "best" true None (Some "youtube")
    (Scripted.start ScriptedApp.audio_success)
  = (inr (true, Some "downloads/song.mp3", Some "song"),
     {| world := {| Scripted.downloads := []; Scripted.probes := [];
                    Scripted.files := ["downloads/song.mp3"] |};
        trace := [ EngineDownload (get_base_opts "best" true (Some "youtube"))
                     "https://youtu.be/dQw4w9WgXcQ" ] |})
  /\ exists filename,
       Some "downloads/song.mp3" = Some filename
       /\ Scripted.path_exists filename
            {| Scripted.downloads := []; Scripted.probes := [];
               Scripted.files := ["downloads/song.mp3"] |} = true.
Proof.
  assert (H :
    Scripted.download_video "https://youtu.be/dQw4w9WgXcQ" "best" true None
      (Some "youtube") (Scripted.start ScriptedApp.audio_success)
    = (inr (true, Some "downloads/song.mp3", Some "song"),
       {| world := {| Scripted.downloads := []; Scripted.probes := [];
                      Scripted.files := ["downloads/song.mp3"] |};
          trace := [ EngineDownload (get_base_opts "best" true (Some "youtube"))
                       "https://youtu.be/dQw4w9WgXcQ" ] |}))
    by (vm_compute; reflexivity).
  split; [exact H|].
  exact (download_video_success_has_file Scripted.engine_download Scripted.path_exists
           "https://youtu.be/dQw4w9WgXcQ" "best" true None (Some "youtube")
           (Scripted.start ScriptedApp.audio_success)
           {| world := {| Scripted.downloads := []; Scripted.probes := [];
                          Scripted.files := ["downloads/song.mp3"] |};
              trace := [ EngineDownload (get_base_opts "best" true (Some "youtube"))
                           "https://youtu.be/dQw4w9WgXcQ" ] |}
           true (Some "downloads/song.mp3") (Some "song") H).
Defined.

Lemma download_video_audio_is_mp3_witness :
  Scripted.download_video "https://youtu.be/dQw4w9WgXcQ" "best" true None (Some "youtube")
    (Scripted.start ScriptedApp.audio_success)
  = (inr (true, Some "downloads/song.mp3", Some "song"),
     {| world := {| Scripted.downloads := []; Scripted.probes := [];
                    Scripted.files := ["downloads/song.mp3"] |};
        trace := [ EngineDownload (get_base_opts "best" true (Some "youtube"))
                     "https://youtu.be/dQw4w9WgXcQ" ] |})
  /\ endswith ".mp3" "downloads/song.mp3" = true.
Proof.
  assert (H :
    Scripted.download_video "https://youtu.be/dQw4w9WgXcQ" "best" true None
      (Some "youtube") (Scripted.start ScriptedApp.audio_success)
    = (inr (true, Some "downloads/song.mp3", Some "song"),
       {| world := {| Scripted.downloads := []; Scripted.probes := [];
                      Scripted.files := ["downloads/song.mp3"] |};
          trace := [ EngineDownload (get_base_opts "best" true (Some "youtube"))
                       "https://youtu.be/dQw4w9WgXcQ" ] |}))
    by (vm_compute; reflexivity).
  split; [exact H|].
  exact (download_video_audio_is_mp3 Scripted.engine_download Scripted.path_exists
           "https://youtu.be/dQw4w9WgXcQ" "best" None (Some "youtube")
           (Scripted.start ScriptedApp.audio_success)
           {| world := {| Scripted.downloads := []; Scripted.probes := [];
                          Scripted.files := ["downloads/song.mp3"] |};
              trace := [ EngineDownload (get_base_opts "best" true (Some "youtube"))
                           "https://youtu.be/dQw4w9WgXcQ" ] |}
           "downloads/song.mp3" (Some "song") H).
Defined.

Lemma download_video_extractor_outdated_witness :
  let url := "https://www.tiktok.com/@user/video/7234567890" in
  let opts : ydl_opts unit := get_base_opts "best" false (Some "tiktok") in
  let w1 := {| Scripted.downloads := [inr Scripted.clip]; Scripted.probes := [];
               Scripted.files := ["downloads/clip.mp4"] |} in
  (is_valid_content_url (sanitize_url url) (Some "tiktok") = true
   /\ Scripted.engine_download opts (sanitize_url url) ScriptedApp.outdated_with_format
      = (inl (DownloadError ScriptedApp.OUTDATED_FORMAT_ERROR), w1)
   /\ contains "Unable to extract sigi state" ScriptedApp.OUTDATED_FORMAT_ERROR = true
   /\ contains "format" ScriptedApp.OUTDATED_FORMAT_ERROR = true)
  /\ Scripted.download_video url "best" false None (Some "tiktok")
       (Scripted.start ScriptedApp.outdated_with_format)
     = (inr (failure MSG_EXTRACTOR_OUTDATED_INNER),
        {| world := w1; trace := [EngineDownload opts (sanitize_url url)] |}).
Proof.
  intros url opts w1.
  assert (Hvalid : is_valid_content_url (sanitize_url url) (Some "tiktok") = true)
    by (vm_compute; reflexivity).
  assert (Hfirst :
    Scripted.engine_download opts (sanitize_url url) ScriptedApp.outdated_with_format
    = (inl (DownloadError ScriptedApp.OUTDATED_FORMAT_ERROR), w1)) by reflexivity.
  assert (Hsigi : contains "Unable to extract sigi state" ScriptedApp.OUTDATED_FORMAT_ERROR
                  = true) by (vm_compute; reflexivity).
  assert (Hfmt : contains "format" ScriptedApp.OUTDATED_FORMAT_ERROR = true)
    by (vm_compute; reflexivity).
  split; [repeat split; assumption|].
  exact (download_video_extractor_outdated Scripted.engine_download Scripted.path_exists
           url "best" false None (Some "tiktok") ScriptedApp.outdated_with_format w1
           ScriptedApp.OUTDATED_FORMAT_ERROR Hvalid Hfirst Hsigi).
Defined.

Lemma download_video_unexpected_error_witness :
  let url := "https://youtu.be/dQw4w9WgXcQ" in
  let opts : ydl_opts unit := get_base_opts "best" false (Some "youtube") in
  (is_valid_content_url (sanitize_url url) (Some "youtube") = true
   /\ Scripted.engine_download opts (sanitize_url url) ScriptedApp.disk_full
      = (inl (OtherException "[Errno 28] No space left on device"), Scripted.idle))
  /\ Scripted.download_video url "best" false None (Some "youtube")
       (Scripted.start ScriptedApp.disk_full)
     = (inr (failure ("Unexpected error: " ++ "[Errno 28] No space left on device")),
        {| world := Scripted.idle; trace := [EngineDownload opts (sanitize_url url)] |}).
Proof.
  intros url opts.
  assert (Hvalid : is_valid_content_url (sanitize_url url) (Some "youtube") = true)
    by (vm_compute; reflexivity).
  assert (Hfirst :
    Scripted.engine_download opts (sanitize_url url) ScriptedApp.disk_full
    = (inl (OtherException "[Errno 28] No space left on device"), Scripted.idle))
    by reflexivity.
  split; [split; assumption|].
  exact (download_video_unexpected_error Scripted.engine_download Scripted.path_exists
           url "best" false None (Some "youtube") ScriptedApp.disk_full Scripted.idle
           "[Errno 28] No space left on device" Hvalid Hfirst).
Defined.

(** A network failure while the web page is fetched: the message has "age"
    inside "webpage", and the outcome is the age-restricted failure. *)
Lemma download_video_classifies_other_errors_witness :
  let url := "https://www.instagram.com/reel/Cabc/" in
  let opts : ydl_opts unit := get_base_opts "best" false (Some "instagram") in
  (is_valid_content_url (sanitize_url url) (Some "instagram") = true
   /\ Scripted.engine_download opts (sanitize_url url) ScriptedApp.network_down
      = (inl (DownloadError ScriptedApp.WEBPAGE_ERROR), Scripted.idle)
   /\ contains "Unable to extract sigi state" ScriptedApp.WEBPAGE_ERROR = false
   /\ contains "format" (lower ScriptedApp.WEBPAGE_ERROR) = false)
  /\ Scripted.download_video url "best" false None (Some "instagram")
       (Scripted.start ScriptedApp.network_down)
     = (inr (classify_download_error ScriptedApp.WEBPAGE_ERROR),
        {| world := Scripted.idle; trace := [EngineDownload opts (sanitize_url url)] |})
  /\ classify_download_error ScriptedApp.WEBPAGE_ERROR = failure MSG_AGE_RESTRICTED.
Proof.
  intros url opts.
  assert (Hvalid : is_valid_content_url (sanitize_url url) (Some "instagram") = true)
    by (vm_compute; reflexivity).
  assert (Hfirst :
    Scripted.engine_download opts (sanitize_url url) ScriptedApp.network_down
    = (inl (DownloadError ScriptedApp.WEBPAGE_ERROR), Scripted.idle)) by reflexivity.
  assert (Hsigi : contains "Unable to extract sigi state" ScriptedApp.WEBPAGE_ERROR = false)
    by (vm_compute; reflexivity).
  assert (Hfmt : contains "format" (lower ScriptedApp.WEBPAGE_ERROR) = false)
    by (vm_compute; reflexivity).
  split; [repeat split; assumption|].
  split; [|vm_compute; reflexivity].
  exact (download_video_classifies_other_errors
           Scripted.engine_download Scripted.path_exists
           url "best" false None (Some "instagram") ScriptedApp.network_down Scripted.idle
           ScriptedApp.WEBPAGE_ERROR Hvalid Hfirst Hsigi Hfmt).
Defined.

(* ====================================================================== *)
(** ** [handle_download] and the history *)
(* ====================================================================== *)

Lemma last_n_snoc {A : Type} (n : nat) (l : list A) (x : A) :
  App.last_n (S n) (l ++ [x]) = (App.last_n n l ++ [x])%list.
Proof.
  unfold App.last_n. rewrite length_app. cbn [List.length].
  replace (List.length l + 1 - S n) with (List.length l - n) by lia.
  rewrite skipn_app.
  replace (List.length l - n - List.length l) with 0 by lia.
  reflexivity.
Qed.

(** The history view shows at most five entries, newest first: a new entry
    comes to the top and pushes the fifth out. *)
Theorem shown_history_newest_first (history : list App.history_item)
    (item : App.history_item) :
  App.shown_history (history ++ [item])
    = item :: firstn 4 (App.shown_history history)
  /\ List.length (App.shown_history history) = Nat.min 5 (List.length history).
Proof.
  unfold App.shown_history. split.
  - rewrite (last_n_snoc 4), rev_app_distr. cbn [rev app]. f_equal.
    rewrite firstn_rev. f_equal. unfold App.last_n.
    rewrite skipn_skipn, length_skipn. f_equal. lia.
  - rewrite length_rev. unfold App.last_n. rewrite length_skipn. lia.
Qed.

(** Deleting by file path keeps the other entries in their order, removes
    every entry with that path, duplicates included, and changes nothing
    when done again. *)
Theorem without_filepath_removes_every_entry (fpath : string)
    (history : list App.history_item) :
  (forall item,
     In item (App.without_filepath fpath history)
     <-> In item history /\ App.h_filepath item <> fpath)
  /\ (forall before after,
        history = (before ++ after)%list ->
        App.without_filepath fpath history
        = (App.without_filepath fpath before ++ App.without_filepath fpath after)%list)
  /\ App.without_filepath fpath (App.without_filepath fpath history)
     = App.without_filepath fpath history
  /\ List.length (App.without_filepath fpath history) <= List.length history.
Proof.
  unfold App.without_filepath. split; [|split; [|split]].
  - intros item. rewrite filter_In, negb_true_iff, String.eqb_neq. tauto.
  - intros before after ->. apply filter_app.
  - induction history as [|h t IH]; [reflexivity|]. cbn [filter].
    destruct (negb (String.eqb (App.h_filepath h) fpath)) eqn:E; [|exact IH].
    cbn [filter]. now rewrite E, IH.
  - apply filter_length_le.
Qed.

Section SessionFacts.

Context {Hook World : Type}.
Variable engine_download :
  ydl_opts Hook -> string -> World -> (exn + download_info) * World.
Variable path_exists : string -> World -> bool.
Variable read_file : string -> World -> exn + string.
Variable os_remove : string -> World -> (exn + unit) * World.
Variable now : World -> string.
Variable my_hook : Hook.

Local Abbreviation handle_download :=
  (App.handle_download Hook World engine_download path_exists read_file now my_hook).
Local Abbreviation delete_history_entry :=
  (App.delete_history_entry Hook World path_exists os_remove).
Local Abbreviation download_video :=
  (DownloadManager.download_video Hook World engine_download path_exists).

(** [handle_download] on a session with no download in progress. *)
Lemma handle_download_idle
    (url : string) (platform : option string) (quality : string) (extract_audio : bool)
    (a : App.app Hook World) :
  App.download_in_progress (App.sess a) = false ->
  handle_download url platform quality extract_audio a =
    let started :=
      {| App.download_in_progress := true;
         App.download_history := App.download_history (App.sess a) |} in
    App.set_in_progress false
      match download_video url quality extract_audio (Some my_hook) platform (App.core a)
      with
      | (inr result, c') =>
          App.after_download Hook World read_file now url platform extract_audio result
            {| App.core := c'; App.sess := started; App.ui := App.ui a |}
      | (inl e, c') =>
          App.show (App.UiError ("Critical Error: " ++ App.exn_str e))
            {| App.core := c'; App.sess := started; App.ui := App.ui a |}
      end.
Proof.
  intros H. unfold App.handle_download. rewrite H.
  cbn [App.core App.sess App.ui App.set_in_progress].
  now destruct (download_video url quality extract_audio (Some my_hook) platform
                  (App.core a)) as [[e | result] c'].
Qed.

(** While a download is in progress, [handle_download] only shows a warning:
    the engine side and the session are untouched.  Otherwise the flag is
    cleared again when it returns, whatever the engine, the disk and the
    outcome were. *)
Theorem handle_download_in_progress_flag
    (url : string) (platform : option string) (quality : string) (extract_audio : bool)
    (a : App.app Hook World) :
  (App.download_in_progress (App.sess a) = true ->
   App.core (handle_download url platform quality extract_audio a) = App.core a
   /\ App.sess (handle_download url platform quality extract_audio a) = App.sess a
   /\ App.ui (handle_download url platform quality extract_audio a)
      = (App.ui a ++ [App.UiWarning "Download in progress..."])%list)
  /\ (App.download_in_progress (App.sess a) = false ->
      App.download_in_progress
        (App.sess (handle_download url platform quality extract_audio a)) = false
      /\ App.core (handle_download url platform quality extract_audio a)
         = snd (download_video url quality extract_audio (Some my_hook) platform
                  (App.core a))).
Proof.
  split; intros H.
  - unfold App.handle_download. rewrite H. repeat split.
  - rewrite (handle_download_idle _ _ _ _ _ H). cbv zeta.
    destruct (download_video url quality extract_audio (Some my_hook) platform
                (App.core a)) as [[e | [[success filepath] message]] c'];
      cbn [snd]; [split; reflexivity|].
    unfold App.after_download.
    destruct (success && App.truthy filepath); [|split; reflexivity].
    cbv zeta. cbn [App.core App.show App.append_history world].
    destruct (read_file (App.str_of filepath) (world c')); split; reflexivity.
Qed.

(** A successful download appends exactly one entry to the history, after
    the entries that were there: it records the URL as submitted, the
    platform, the title and the file.  This happens before the file is read
    for the download button, so also when that reading fails. *)
Theorem handle_download_appends_on_success
    (url : string) (platform : option string) (quality : string) (extract_audio : bool)
    (a : App.app Hook World) (filename : string) (title : option string)
    (c' : state Hook World) :
  App.download_in_progress (App.sess a) = false ->
  download_video url quality extract_audio (Some my_hook) platform (App.core a)
    = (inr (true, Some filename, title), c') ->
  filename <> "" ->
  App.history_of (handle_download url platform quality extract_audio a)
  = (App.history_of a
     ++ [ {| App.h_url := url; App.h_platform := platform; App.h_title := title;
             App.h_filepath := filename; App.h_date := now (world c') |} ])%list.
Proof.
  intros Hidle Hrun Hname. rewrite (handle_download_idle _ _ _ _ _ Hidle), Hrun.
  cbv zeta. unfold App.after_download. cbn [App.truthy andb].
  rewrite (falsy_false filename Hname). cbn [negb]. cbv zeta.
  cbn [App.core App.show App.append_history App.str_of world App.sess].
  destruct (read_file filename (world c')); unfold App.history_of; cbn;
    now destruct (App.download_history (App.sess a)).
Qed.

(** A failed download leaves the history as it was and shows the message of
    the failure. *)
Theorem handle_download_keeps_history_on_failure
    (url : string) (platform : option string) (quality : string) (extract_audio : bool)
    (a : App.app Hook World) (filepath message : option string)
    (c' : state Hook World) :
  App.download_in_progress (App.sess a) = false ->
  download_video url quality extract_audio (Some my_hook) platform (App.core a)
    = (inr (false, filepath, message), c') ->
  App.download_history (App.sess (handle_download url platform quality extract_audio a))
    = App.download_history (App.sess a)
  /\ App.ui (handle_download url platform quality extract_audio a)
     = (App.ui a ++ [App.UiContainerEmpty; App.UiError (App.str_of message)])%list.
Proof.
  intros Hidle Hrun. rewrite (handle_download_idle _ _ _ _ _ Hidle), Hrun.
  cbv zeta. unfold App.after_download. cbn. rewrite <- app_assoc. split; reflexivity.
Qed.

(** The delete button replaces the history by the entries with another file
    path.  When the file is already gone nothing is removed from disk and
    nothing is raised; when it is there, [os.remove] is called once. *)
Theorem delete_history_entry_behaviour
    (fpath : string) (a : App.app Hook World) (history : list App.history_item) :
  App.download_history (App.sess a) = Some history ->
  App.history_of (snd (delete_history_entry fpath a)) = App.without_filepath fpath history
  /\ (path_exists fpath (world (App.core a)) = false ->
      fst (delete_history_entry fpath a) = inr tt
      /\ App.core (snd (delete_history_entry fpath a)) = App.core a)
  /\ (path_exists fpath (world (App.core a)) = true ->
      fst (delete_history_entry fpath a) = fst (os_remove fpath (world (App.core a)))
      /\ world (App.core (snd (delete_history_entry fpath a)))
         = snd (os_remove fpath (world (App.core a)))).
Proof.
  intros Hh. unfold App.delete_history_entry. rewrite Hh. repeat split.
  - destruct (path_exists fpath (world (App.core a))); [|reflexivity].
    destruct (os_remove fpath (world (App.core a))) as [[e | u] w]; reflexivity.
  - rewrite H. reflexivity.
  - rewrite H. reflexivity.
  - rewrite H.
    destruct (os_remove fpath (world (App.core a))) as [[e | []] w]; reflexivity.
  - rewrite H.
    destruct (os_remove fpath (world (App.core a))) as [[e | u] w]; reflexivity.
Qed.

End SessionFacts.

Lemma handle_download_in_progress_flag_witness :
  App.download_in_progress (App.sess (ScriptedApp.busy ScriptedApp.one_success)) = true
  /\ App.core (ScriptedApp.handle_download "https://youtu.be/dQw4w9WgXcQ" (Some "youtube")
                 "best" false (ScriptedApp.busy ScriptedApp.one_success))
     = App.core (ScriptedApp.busy ScriptedApp.one_success).
Proof.
  assert (H : App.download_in_progress
                (App.sess (ScriptedApp.busy ScriptedApp.one_success)) = true)
    by reflexivity.
  split; [exact H|].
  exact (proj1 (proj1 (handle_download_in_progress_flag
                         Scripted.engine_download Scripted.path_exists
                         ScriptedApp.read_file ScriptedApp.now tt
                         "https://youtu.be/dQw4w9WgXcQ" (Some "youtube") "best" false
                         (ScriptedApp.busy ScriptedApp.one_success)) H)).
Defined.

Lemma handle_download_appends_on_success_witness :
  let a := ScriptedApp.fresh ScriptedApp.one_success in
  let c' : state unit Scripted.world :=
    {| world := {| Scripted.downloads := []; Scripted.probes := [];
                   Scripted.files := ["downloads/clip.mp4"] |};
       trace := [ EngineDownload
                    (with_progress_hook (Some tt) (get_base_opts "best" false (Some "youtube")))
                    "https://youtu.be/dQw4w9WgXcQ" ] |} in
  (App.download_in_progress (App.sess a) = false
   /\ Scripted.download_video "https://youtu.be/dQw4w9WgXcQ" "best" false (Some tt)
        (Some "youtube") (App.core a)
      = (inr (true, Some "downloads/clip.mp4", Some "clip"), c')
   /\ "downloads/clip.mp4" <> "")
  /\ App.history_of (ScriptedApp.handle_download "https://youtu.be/dQw4w9WgXcQ"
                       (Some "youtube") "best" false a)
     = [ ScriptedApp.entry "downloads/clip.mp4" "clip" ].
Proof.
  intros a c'.
  assert (H1 : App.download_in_progress (App.sess a) = false) by reflexivity.
  assert (H2 : Scripted.download_video "https://youtu.be/dQw4w9WgXcQ" "best" false
                 (Some tt) (Some "youtube") (App.core a)
               = (inr (true, Some "downloads/clip.mp4", Some "clip"), c'))
    by (vm_compute; reflexivity).
  assert (H3 : "downloads/clip.mp4" <> "") by discriminate.
  split; [repeat split; assumption|].
  exact (handle_download_appends_on_success
           Scripted.engine_download Scripted.path_exists ScriptedApp.read_file
           ScriptedApp.now tt
           "https://youtu.be/dQw4w9WgXcQ" (Some "youtube") "best" false a
           "downloads/clip.mp4" (Some "clip") c' H1 H2 H3).
Defined.

Lemma handle_download_keeps_history_on_failure_witness :
  let a := ScriptedApp.fresh Scripted.private_video in
  let c' : state unit Scripted.world :=
    {| world := Scripted.idle;
       trace := [ EngineDownload
                    (with_progress_hook (Some tt) (get_base_opts "best" false (Some "youtube")))
                    "https://youtu.be/dQw4w9WgXcQ" ] |} in
  (App.download_in_progress (App.sess a) = false
   /\ Scripted.download_video "https://youtu.be/dQw4w9WgXcQ" "best" false (Some tt)
        (Some "youtube") (App.core a)
      = (inr (false, None, Some MSG_PRIVATE_VIDEO), c'))
  /\ App.download_history
       (App.sess (ScriptedApp.handle_download "https://youtu.be/dQw4w9WgXcQ"
                    (Some "youtube") "best" false a))
     = Some [].
Proof.
  intros a c'.
  assert (H1 : App.download_in_progress (App.sess a) = false) by reflexivity.
  assert (H2 : Scripted.download_video "https://youtu.be/dQw4w9WgXcQ" "best" false
                 (Some tt) (Some "youtube") (App.core a)
               = (inr (false, None, Some MSG_PRIVATE_VIDEO), c'))
    by (vm_compute; reflexivity).
  split; [split; assumption|].
  exact (proj1 (handle_download_keeps_history_on_failure
                  Scripted.engine_download Scripted.path_exists ScriptedApp.read_file
                  ScriptedApp.now tt
                  "https://youtu.be/dQw4w9WgXcQ" (Some "youtube") "best" false a
                  None (Some MSG_PRIVATE_VIDEO) c' H1 H2)).
Defined.

(** Two entries share the file that is deleted; the file is already gone. *)
Lemma delete_history_entry_behaviour_witness :
  let a := ScriptedApp.with_history Scripted.idle in
  App.download_history (App.sess a)
  = Some [ ScriptedApp.entry "downloads/clip.mp4" "clip";
           ScriptedApp.entry "downloads/song.mp3" "song";
           ScriptedApp.entry "downloads/clip.mp4" "clip" ]
  /\ App.history_of (snd (ScriptedApp.delete_history_entry "downloads/clip.mp4" a))
     = [ ScriptedApp.entry "downloads/song.mp3" "song" ]
  /\ fst (ScriptedApp.delete_history_entry "downloads/clip.mp4" a) = inr tt.
Proof.
  intros a.
  assert (H : App.download_history (App.sess a)
              = Some [ ScriptedApp.entry "downloads/clip.mp4" "clip";
                       ScriptedApp.entry "downloads/song.mp3" "song";
                       ScriptedApp.entry "downloads/clip.mp4" "clip" ]) by reflexivity.
  pose proof (delete_history_entry_behaviour Scripted.path_exists ScriptedApp.os_remove
                "downloads/clip.mp4" a _ H) as [Hhist [Hgone _]].
  split; [exact H|]. split; [exact Hhist|].
  exact (proj1 (Hgone eq_refl)).
Defined.
